(** * Rate-limit projector of [scripts/rate_limits.py]

    A shallow embedding of [main] of [scripts/rate_limits.py]: the loop over
    the configured chains, the two-stage buffer projection of every chain and
    the closing recalculation for the hub chain (Optimism, chain id 10).

    Numbers.  Values read from a chain (vote weights, buffer caps, rate
    limits, block timestamps) are Python [int]s and are modelled by [Z].
    Values produced by Python's true division [/] and everything computed
    from them are Python [float]s; they are modelled by exact rationals [Q],
    i.e. by the real-number reading of the float expressions, without
    rounding and without overflow.  Comparisons between the two kinds go
    through [inject_Z], as Python compares an [int] with a [float] by value.

    Effects.  [main] keeps asking the hub's RPC endpoint for the latest block
    timestamp, and every call of a contract may raise.  Both are modelled by a
    small state and exception monad [M]: the state counts the timestamp reads
    made so far, so the k-th read returns the k-th answer of the endpoint. *)

From Stdlib Require Import ZArith QArith Qminmax Lia Lqa String.
From Stdlib Require Import Floats.SpecFloat.
From stdpp Require Import base option list gmap.

Local Open Scope Z_scope.

(** ** Exceptions, state and the monad *)

(** The exceptions a run can end with: Python's own [ZeroDivisionError]
    (raised by [/] and [%] on a zero divisor) and the failure of a call to an
    RPC endpoint. *)
Inductive exn : Type :=
  | ZeroDivisionError
  | RpcError.

Inductive result (A : Type) : Type :=
  | Ok (a : A)
  | Raise (e : exn).
Arguments Ok {A} a.
Arguments Raise {A} e.

(** The state is the number of [web3.eth.get_block("latest")] calls made so
    far on the hub endpoint. *)
Definition M (A : Type) : Type := nat -> result (A * nat).

Definition ret {A} (a : A) : M A := fun s => Ok (a, s).

Definition raise {A} (e : exn) : M A := fun _ => Raise e.

Definition bind {A B} (m : M A) (k : A -> M B) : M B :=
  fun s => match m s with
           | Ok (a, s') => k a s'
           | Raise e => Raise e
           end.

#[global] Instance M_ret : MRet M := @ret.
#[global] Instance M_bind : MBind M := fun A B k m => bind m k.

(** ** Numbers *)

(** [a > b] on floats. *)
Definition Qgtb (a b : Q) : bool := negb (Qle_bool a b).

(** Python's [min(a, b)]: [b] when [b < a], else [a]. *)
Definition py_min (a b : Q) : Q := if Qgtb a b then b else a.

(** Python's [a / b]: raises on a zero divisor. *)
Definition truediv (a b : Q) : M Q :=
  if Qeq_bool b 0 then raise ZeroDivisionError else ret (a / b)%Q.

(** ** Data model *)

(** Modelled from the spec: the classes [PoolData], [ChainData] and
    [NewLimitData] of [utils/types.py], which is not part of the sources at
    hand; the fields are the ones [rate_limits.py] reads and writes (the
    spec's NetworkState and LimitRecommendation). *)
Record PoolData : Type := {
  address : string;
  voting_power : Z
}.

Record ChainData : Type := {
  name : string;
  pools : list PoolData;
  total_voting_weight : Z;
  existing_buffer_cap : Z;
  existing_rate_limit : Z;
  current_limit : Z;
  existing_midpoint : Z;
  expected_emissions : Q
}.

Record NewLimitData : Type := {
  limit_name : string;
  buffer_cap : Q;
  rate_limit : Q;
  temporary_rate_limit : Q
}.

(** [chain_data.expected_emissions = e] *)
Definition set_expected_emissions (cd : ChainData) (e : Q) : ChainData :=
  {| name := name cd; pools := pools cd;
     total_voting_weight := total_voting_weight cd;
     existing_buffer_cap := existing_buffer_cap cd;
     existing_rate_limit := existing_rate_limit cd;
     current_limit := current_limit cd;
     existing_midpoint := existing_midpoint cd;
     expected_emissions := e |}.

(** ** The chain data provider *)

(** The RPC endpoints: the hub (the module-level [web3], built on
    [OPTIMISM_RPC_URL]) and one endpoint per configured chain (the
    [web3_temp] of [fetch_existing_buffers], built on the chain's
    [rpc_url]). *)
Inductive endpoint : Type :=
  | Hub
  | Spoke (chain_id : Z).

(** What the endpoints answer during one run.  [None] stands for a call that
    raises.  [latest_block_timestamp e k] is the answer of endpoint [e] to
    its k-th [get_block("latest").timestamp]. *)
Record Provider : Type := {
  latest_block_timestamp : endpoint -> nat -> option Z;
  totalSupply : option Z;
  weekly : option Z;
  bufferCap : option Z;
  rateLimitPerSecond : option Z;
  burningCurrentLimitOf : option Z
}.

(** A contract call: its answer, or [RpcError]. *)
Definition call (r : option Z) : M Z :=
  match r with
  | Some v => ret v
  | None => raise RpcError
  end.

(** [web3.eth.get_block("latest").timestamp]: the next answer of the hub
    endpoint. *)
Definition web3_latest_timestamp (w : Provider) : M Z :=
  fun s => match latest_block_timestamp w Hub s with
           | Some t => Ok (t, S s)
           | None => Raise RpcError
           end.

(** ** Constants *)

(** Modelled from the spec: the constant [WEEK] of [utils/constants.py],
    which is not part of the sources at hand; the fixed epoch length of one
    week, in seconds. *)
Definition WEEK : Z := 604800.

(** The id under which the hub's recommendation is stored
    ([new_chain_limits[10]]). *)
Definition OPTIMISM : Z := 10.

(** ** Epoch windows *)

(** [epoch_next = timestamp - (timestamp % WEEK) + WEEK] *)
Definition epoch_next (timestamp : Z) : Z :=
  timestamp - (timestamp mod WEEK) + WEEK.

(** The window of the primary check (lines 112-113):
    [time_to_next_epoch = epoch_next - timestamp]. *)
Definition primary_window (timestamp : Z) : Z :=
  epoch_next timestamp - timestamp.

(** [replenish_ts = epoch_next - (60 * 10)] *)
Definition replenish_ts (timestamp : Z) : Z :=
  epoch_next timestamp - (60 * 10).

(** The window of the contingency check (lines 136-141, and again lines
    180-183 for the hub):
    [replenish_ts - timestamp if timestamp < replenish_ts
       else epoch_next - timestamp]. *)
Definition contingency_window (timestamp : Z) : Z :=
  if timestamp <? replenish_ts timestamp
  then replenish_ts timestamp - timestamp
  else epoch_next timestamp - timestamp.

(** Moments of one epoch, for the scenarios: one thousand seconds after its
    start and one thousand seconds before its end. *)
Definition EPOCH_START : Z := 2810 * WEEK.
Definition EARLY : Z := EPOCH_START + 1000.
Definition LATE : Z := EPOCH_START + WEEK - 1000.

(** * The projector in binary64 arithmetic *)

(** ** The projector on binary64

    The same lines of [main], with Python's numbers as they are: an [int] is
    an integer of any size, a [float] is an IEEE 754 binary64, given by the
    Standard Library's [spec_float] with a precision of 53 bits.  Arithmetic
    between the two converts the [int] to the nearest [float] first;
    comparisons between the two are exact. *)
Module F64.

Definition prec : Z := 53.
Definition emax : Z := 1024.

(** A Python number. *)
Inductive num : Type :=
  | Int (z : Z)
  | Float (f : spec_float).

(** The exceptions of a run: [ZeroDivisionError], [OverflowError] (an [int]
    too large to convert to [float], or an [int / int] too large for a
    [float]) and the failure of a call to an RPC endpoint. *)
Inductive exn : Type :=
  | ZeroDivisionError
  | OverflowError
  | RpcError.

Inductive result (A : Type) : Type :=
  | Ok (a : A)
  | Raise (e : exn).
Arguments Ok {A} a.
Arguments Raise {A} e.

#[export] Instance result_ret : MRet result := @Ok.
#[export] Instance result_bind : MBind result := fun A B k r =>
  match r with
  | Ok a => k a
  | Raise e => Raise e
  end.

(** As in the exact model, the state counts the timestamp reads made so far
    on the hub endpoint. *)
Definition M (A : Type) : Type := nat -> result (A * nat).

#[export] Instance M_ret : MRet M := fun A a s => Ok (a, s).
#[export] Instance M_bind : MBind M := fun A B k m s =>
  match m s with
  | Ok (a, s') => k a s'
  | Raise e => Raise e
  end.

(** An expression that does not touch the endpoints. *)
Definition lift {A} (r : result A) : M A :=
  fun s => match r with
           | Ok a => Ok (a, s)
           | Raise e => Raise e
           end.

(** *** Python's arithmetic *)

(** [float(z)]: the nearest binary64, ties to even. *)
Definition int_to_float (z : Z) : spec_float := binary_normalize prec emax z 0 false.

(** The conversion of an operand of a mixed operation; it raises when the
    [int] rounds to an infinity. *)
Definition to_float (x : num) : result spec_float :=
  match x with
  | Float f => Ok f
  | Int z =>
      match int_to_float z with
      | S754_infinity _ => Raise OverflowError
      | f => Ok f
      end
  end.

Definition is_zero (f : spec_float) : bool :=
  match f with
  | S754_zero _ => true
  | _ => false
  end.

(** [x + y] *)
Definition add (x y : num) : result num :=
  match x, y with
  | Int a, Int b => Ok (Int (a + b))
  | _, _ => a ← to_float x; b ← to_float y; Ok (Float (SFadd prec emax a b))
  end.

(** [x - y] *)
Definition sub (x y : num) : result num :=
  match x, y with
  | Int a, Int b => Ok (Int (a - b))
  | _, _ => a ← to_float x; b ← to_float y; Ok (Float (SFsub prec emax a b))
  end.

(** [x * y] *)
Definition mul (x y : num) : result num :=
  match x, y with
  | Int a, Int b => Ok (Int (a * b))
  | _, _ => a ← to_float x; b ← to_float y; Ok (Float (SFmul prec emax a b))
  end.

(** An [int] as an exact, unrounded operand of [int / int]. *)
Definition exact (z : Z) : spec_float :=
  match z with
  | Z0 => S754_zero false
  | Zpos p => S754_finite false p 0
  | Zneg p => S754_finite true p 0
  end.

(** [x / y]: true division.  [int / int] is the correctly rounded quotient of
    the two integers. *)
Definition truediv (x y : num) : result num :=
  match x, y with
  | Int a, Int b =>
      if b =? 0 then Raise ZeroDivisionError
      else match SFdiv prec emax (exact a) (exact b) with
           | S754_infinity _ => Raise OverflowError
           | f => Ok (Float f)
           end
  | _, _ =>
      a ← to_float x; b ← to_float y;
      if is_zero b then Raise ZeroDivisionError
      else Ok (Float (SFdiv prec emax a b))
  end.

(** Comparisons are by value, exact also between an [int] and a [float].  A
    finite number is [mantissa * 2 ^ exponent]; two of them are compared on
    their common smaller exponent.  [None] when a NaN is compared. *)
Definition mantissa (f : spec_float) : Z :=
  match f with
  | S754_finite s m _ => cond_Zopp s (Zpos m)
  | _ => 0
  end.

Definition exponent (f : spec_float) : Z :=
  match f with
  | S754_finite _ _ e => e
  | _ => 0
  end.

Definition compare_float (f g : spec_float) : option comparison :=
  match f, g with
  | S754_nan, _ | _, S754_nan => None
  | S754_infinity s, S754_infinity t =>
      Some (match s, t with
            | true, false => Lt
            | false, true => Gt
            | _, _ => Eq
            end)
  | S754_infinity s, _ => Some (if s then Lt else Gt)
  | _, S754_infinity t => Some (if t then Gt else Lt)
  | _, _ =>
      let e := Z.min (exponent f) (exponent g) in
      Some (mantissa f * 2 ^ (exponent f - e) ?= mantissa g * 2 ^ (exponent g - e))
  end.

Definition compare (x y : num) : option comparison :=
  match x, y with
  | Int a, Int b => Some (a ?= b)
  | Int a, Float g => compare_float (exact a) g
  | Float f, Int b => compare_float f (exact b)
  | Float f, Float g => compare_float f g
  end.

(** [x < y] *)
Definition lt (x y : num) : bool :=
  match compare x y with
  | Some Lt => true
  | _ => false
  end.

(** [x > y] *)
Definition gt (x y : num) : bool :=
  match compare x y with
  | Some Gt => true
  | _ => false
  end.

(** [x == y] *)
Definition eqb (x y : num) : bool :=
  match compare x y with
  | Some Eq => true
  | _ => false
  end.

(** [x <= y] *)
Definition le (x y : num) : bool :=
  match compare x y with
  | Some (Lt | Eq) => true
  | _ => false
  end.

(** [x >= y] *)
Definition ge (x y : num) : bool :=
  match compare x y with
  | Some (Gt | Eq) => true
  | _ => false
  end.

(** The value of a finite number, as a rational. *)
Definition F2Q (f : spec_float) : Q := inject_Z (mantissa f) * 2 ^ exponent f.

Definition is_finite (f : spec_float) : bool :=
  match f with
  | S754_zero _ | S754_finite _ _ _ => true
  | _ => false
  end.

(** [rounded s m1 e1 f]: [f] has the sign [s] and the value [m1 * 2 ^ e1], or
    is the infinity of that sign, which takes an exponent [e1] of 971 at
    least; its mantissa has at most 53 bits. *)
Definition rounded (s : bool) (m1 e1 : Z) (f : spec_float) : Prop :=
  match f with
  | S754_zero s' => s' = s /\ m1 = 0
  | S754_finite s' p e2 =>
      s' = s /\ e1 <= e2 /\ Zpos p * 2 ^ (e2 - e1) = m1 /\ Zpos p < 2 ^ 53
      /\ -1074 <= e2 <= 971
  | S754_infinity s' => s' = s /\ 0 < m1 /\ 971 <= e1
  | S754_nan => False
  end.

(** A number that is zero or positive: an [int] that is not negative, or a
    [float] with a clear sign bit that is not a NaN. *)
Definition nonneg_float (f : spec_float) : bool :=
  match f with
  | S754_zero false | S754_infinity false | S754_finite false _ _ => true
  | _ => false
  end.

Definition nonneg (x : num) : bool :=
  match x with
  | Int z => 0 <=? z
  | Float f => nonneg_float f
  end.

(** A [float] whose mantissa has at most 53 bits, on an exponent of at least
    -1074: the results of the arithmetic are of this kind. *)
Definition bounded_float (f : spec_float) : Prop :=
  match f with
  | S754_finite _ m e => Zpos m < 2 ^ 53 /\ -1074 <= e
  | _ => True
  end.

(** [min(x, y)]: [y] when [y < x], else [x]. *)
Definition min_ (x y : num) : num := if lt y x then y else x.

(** [max(x, y)]: [y] when [y > x], else [x]. *)
Definition max_ (x y : num) : num := if gt y x then y else x.

(** *** Data *)

(** Modelled from the spec: [ChainData] and [NewLimitData] of
    [utils/types.py], as in the exact model; [expected_emissions] and the
    fields of a recommendation hold Python numbers. *)
Record ChainData : Type := {
  name : string;
  pools : list PoolData;
  total_voting_weight : Z;
  existing_buffer_cap : Z;
  existing_rate_limit : Z;
  current_limit : Z;
  existing_midpoint : Z;
  expected_emissions : num
}.

Record NewLimitData : Type := {
  limit_name : string;
  buffer_cap : num;
  rate_limit : num;
  temporary_rate_limit : num
}.

(** [chain_data.expected_emissions = e] *)
Definition set_expected_emissions (cd : ChainData) (e : num) : ChainData :=
  {| name := name cd; pools := pools cd;
     total_voting_weight := total_voting_weight cd;
     existing_buffer_cap := existing_buffer_cap cd;
     existing_rate_limit := existing_rate_limit cd;
     current_limit := current_limit cd;
     existing_midpoint := existing_midpoint cd;
     expected_emissions := e |}.

Definition call (r : option Z) : M Z :=
  match r with
  | Some v => mret v
  | None => fun _ => Raise RpcError
  end.

(** [web3.eth.get_block("latest").timestamp]: the next answer of the hub
    endpoint. *)
Definition web3_latest_timestamp (w : Provider) : M Z :=
  fun s => match latest_block_timestamp w Hub s with
           | Some t => Ok (t, S s)
           | None => Raise RpcError
           end.

Section Projector.

(** The margins [BUFFER_MARGIN] and [RPS_MARGIN] of [utils/constants.py] are
    parameters: Python numbers. *)
Variables BUFFER_MARGIN RPS_MARGIN : num.

(** *** The values computed for one chain (lines 95-102) *)

Record Values : Type := {
  min_emissions : num;
  min_buffer_cap : num;
  padded_emissions : num;
  adjusted_buffer_cap : num;
  adjusted_rps : num
}.

Definition chain_values (total_voting_weight_ weekly_ : Z) (chain_data : ChainData)
    : result Values :=
  weights_percentage ←
    truediv (Int (total_voting_weight chain_data)) (Int total_voting_weight_);
  min_emissions_ ← mul (Int weekly_) weights_percentage;
  min_buffer_cap_ ← mul min_emissions_ (Int 2);
  expected_emissions_ ← mul min_emissions_ BUFFER_MARGIN;
  adjusted_buffer_cap_ ← mul min_buffer_cap_ BUFFER_MARGIN;
  per_second ← truediv min_buffer_cap_ (Int WEEK);
  adjusted_rps_ ← mul per_second RPS_MARGIN;
  mret {| min_emissions := min_emissions_;
          min_buffer_cap := min_buffer_cap_;
          padded_emissions := expected_emissions_;
          adjusted_buffer_cap := adjusted_buffer_cap_;
          adjusted_rps := adjusted_rps_ |}.

(** The summand of [op_buffer_delta] (lines 103-107):
    [adjusted_buffer_cap - existing_buffer_cap
       if adjusted_buffer_cap > existing_buffer_cap else 0] *)
Definition cap_increase (adjusted_buffer_cap_ : num) (existing_buffer_cap_ : Z)
    : result num :=
  if gt adjusted_buffer_cap_ (Int existing_buffer_cap_)
  then sub adjusted_buffer_cap_ (Int existing_buffer_cap_)
  else mret (Int 0).

(** *** The primary check (lines 112-117, 133) *)

(** [replenished_buffer = min(expected_buffer, chain_data.existing_midpoint)],
    all [int]s. *)
Definition primary_replenished_buffer (chain_data : ChainData) (timestamp : Z) : Z :=
  let time_to_next_epoch := primary_window timestamp in
  let expected_buffer :=
    current_limit chain_data + existing_rate_limit chain_data * time_to_next_epoch in
  Z.min expected_buffer (existing_midpoint chain_data).

(** *** The contingency check (lines 143-169, and again lines 189-211) *)

(** [replenished_buffer = min(expected_buffer, adjusted_buffer_cap / 2)] with
    [expected_buffer = current_limit + (adjusted_rps * time_to_next_epoch)]. *)
Definition contingency_replenished_buffer
    (current_limit_ : Z) (adjusted_buffer_cap_ adjusted_rps_ : num)
    (time_to_next_epoch : Z) : result num :=
  replenished ← mul adjusted_rps_ (Int time_to_next_epoch);
  expected_buffer ← add (Int current_limit_) replenished;
  half ← truediv adjusted_buffer_cap_ (Int 2);
  mret (min_ expected_buffer half).

(** [temporary_rps = buffer_delta / time_to_next_epoch * RPS_MARGIN] with
    [buffer_delta = (adjusted_buffer_cap / 2) - current_limit]. *)
Definition temporary_rps
    (current_limit_ : Z) (adjusted_buffer_cap_ : num) (time_to_next_epoch : Z)
    : result num :=
  half ← truediv adjusted_buffer_cap_ (Int 2);
  buffer_delta ← sub half (Int current_limit_);
  per_second ← truediv buffer_delta (Int time_to_next_epoch);
  mul per_second RPS_MARGIN.

(** The branch on [expected_emissions > replenished_buffer] and the
    [NewLimitData] each side builds; the source has this text for a chain
    (lines 143-169) and for the hub (lines 189-211). *)
Definition contingency_check
    (name_ : string) (current_limit_ : Z) (expected_emissions_ : num)
    (adjusted_buffer_cap_ adjusted_rps_ : num) (time_to_next_epoch : Z)
    : result NewLimitData :=
  replenished_buffer ←
    contingency_replenished_buffer
      current_limit_ adjusted_buffer_cap_ adjusted_rps_ time_to_next_epoch;
  if gt expected_emissions_ replenished_buffer then
    temporary_rps_ ← temporary_rps current_limit_ adjusted_buffer_cap_ time_to_next_epoch;
    mret {| limit_name := name_; buffer_cap := adjusted_buffer_cap_;
            rate_limit := adjusted_rps_; temporary_rate_limit := temporary_rps_ |}
  else
    mret {| limit_name := name_; buffer_cap := adjusted_buffer_cap_;
            rate_limit := adjusted_rps_; temporary_rate_limit := Int 0 |}.

(** *** The loop over the chains (lines 88-171) *)

Record Locals : Type := {
  new_chain_limits : gmap Z NewLimitData;
  op_buffer_delta : num;
  op_expected_emissions : num
}.

(** Lines 88-91. *)
Definition init_locals : Locals :=
  {| new_chain_limits := ∅; op_buffer_delta := Int 0; op_expected_emissions := Int 0 |}.

(** Lines 95-108 of a turn: the chain's values and the two running totals. *)
Definition turn_values (total_voting_weight_ weekly_ : Z) (l : Locals)
    (chain_data : ChainData) : result (Values * num * num) :=
  values ← chain_values total_voting_weight_ weekly_ chain_data;
  increase ← cap_increase (adjusted_buffer_cap values) (existing_buffer_cap chain_data);
  op_buffer_delta_ ← add (op_buffer_delta l) increase;
  op_expected_emissions_ ← add (op_expected_emissions l) (padded_emissions values);
  mret (values, op_buffer_delta_, op_expected_emissions_).

(** One turn of [for chain_id, chain_data in chains.items()]. *)
Definition process_chain
    (w : Provider) (total_voting_weight_ weekly_ : Z)
    (l : Locals) (chain_id : Z) (chain_data : ChainData)
    : M (Locals * ChainData) :=
  '(values, op_buffer_delta_, op_expected_emissions_) ←
    lift (turn_values total_voting_weight_ weekly_ l chain_data);
  let chain_data := set_expected_emissions chain_data (padded_emissions values) in
  timestamp ← web3_latest_timestamp w;
  let replenished_buffer := primary_replenished_buffer chain_data timestamp in
  if gt (expected_emissions chain_data) (Int replenished_buffer) then
    timestamp ← web3_latest_timestamp w;
    let time_to_next_epoch := contingency_window timestamp in
    limits ← lift (contingency_check (name chain_data) (current_limit chain_data)
                     (expected_emissions chain_data)
                     (adjusted_buffer_cap values) (adjusted_rps values)
                     time_to_next_epoch);
    mret ({| new_chain_limits := <[chain_id := limits]> (new_chain_limits l);
             op_buffer_delta := op_buffer_delta_;
             op_expected_emissions := op_expected_emissions_ |}, chain_data)
  else
    mret ({| new_chain_limits := new_chain_limits l;
             op_buffer_delta := op_buffer_delta_;
             op_expected_emissions := op_expected_emissions_ |}, chain_data).

Fixpoint process_chains
    (w : Provider) (total_voting_weight_ weekly_ : Z)
    (l : Locals) (chains : list (Z * ChainData))
    : M (Locals * list (Z * ChainData)) :=
  match chains with
  | [] => mret (l, [])
  | (chain_id, chain_data) :: rest =>
      '(l', chain_data') ←
        process_chain w total_voting_weight_ weekly_ l chain_id chain_data;
      '(l'', rest') ← process_chains w total_voting_weight_ weekly_ l' rest;
      mret (l'', (chain_id, chain_data') :: rest')
  end.

(** *** The hub (lines 173-211) *)

(** Lines 185-187: the hub's cap and rate. *)
Definition hub_values (l : Locals) (op_buffer_cap : Z) : result (num * num) :=
  adjusted_buffer_cap_ ← add (op_buffer_delta l) (Int op_buffer_cap);
  min_buffer_cap_ ← truediv adjusted_buffer_cap_ BUFFER_MARGIN;
  per_second ← truediv min_buffer_cap_ (Int WEEK);
  adjusted_rps_ ← mul per_second RPS_MARGIN;
  mret (adjusted_buffer_cap_, adjusted_rps_).

Definition process_hub (w : Provider) (l : Locals) : M (gmap Z NewLimitData) :=
  if gt (op_buffer_delta l) (Int 0) then
    op_buffer_cap ← call (bufferCap w);
    op_rate_limit ← call (rateLimitPerSecond w);
    op_current_limit ← call (burningCurrentLimitOf w);
    timestamp ← web3_latest_timestamp w;
    let time_to_next_epoch := contingency_window timestamp in
    '(adjusted_buffer_cap_, adjusted_rps_) ← lift (hub_values l op_buffer_cap);
    limits ← lift (contingency_check "Optimism" op_current_limit
                     (op_expected_emissions l)
                     adjusted_buffer_cap_ adjusted_rps_ time_to_next_epoch);
    mret (<[OPTIMISM := limits]> (new_chain_limits l))
  else
    mret (new_chain_limits l).

(** *** [main] (lines 79-213) *)
Definition main (w : Provider) (chains : list (Z * ChainData))
    : M (gmap Z NewLimitData) :=
  total_voting_weight_ ← call (totalSupply w);
  weekly_ ← call (weekly w);
  '(l, _) ← process_chains w total_voting_weight_ weekly_ init_locals chains;
  process_hub w l.

Definition run {A} (m : M A) : result A :=
  match m 0%nat with
  | Ok (a, _) => Ok a
  | Raise e => Raise e
  end.

(** [not new_chain_limits] (line 219). *)
Definition no_new_limits_required (new_chain_limits_ : gmap Z NewLimitData) : bool :=
  bool_decide (new_chain_limits_ = ∅).

(** The sum the spec gives for [buffer_delta_total], evaluated as Python
    evaluates it: [buffer_delta_total += max(0, adjusted_buffer_cap_i -
    existing_buffer_cap_i)], from 0. *)
Fixpoint buffer_delta_total (total_voting_weight_ weekly_ : Z)
    (chains : list (Z * ChainData)) (total : num) : result num :=
  match chains with
  | [] => mret total
  | (_, chain_data) :: rest =>
      values ← chain_values total_voting_weight_ weekly_ chain_data;
      difference ← sub (adjusted_buffer_cap values) (Int (existing_buffer_cap chain_data));
      total' ← add total (max_ (Int 0) difference);
      buffer_delta_total total_voting_weight_ weekly_ rest total'
  end.

End Projector.

(** *** Scenarios

    The margins of the spec's scenario A as Python reads the literals [1.2]
    and [1.1]: the binary64 numbers nearest to 12/10 and 11/10. *)
Definition nearest_12_10 : spec_float :=
  Eval vm_compute in SFdiv prec emax (exact 12) (exact 10).
Definition nearest_11_10 : spec_float :=
  Eval vm_compute in SFdiv prec emax (exact 11) (exact 10).
Definition BUFFER_MARGIN_A : num := Float nearest_12_10.
Definition RPS_MARGIN_A : num := Float nearest_11_10.

(** A chain of the dict after the fetches. *)
Definition chain (name_ : string)
    (total_voting_weight_ existing_buffer_cap_ existing_rate_limit_
     current_limit_ existing_midpoint_ : Z) : ChainData :=
  {| name := name_; pools := [];
     total_voting_weight := total_voting_weight_;
     existing_buffer_cap := existing_buffer_cap_;
     existing_rate_limit := existing_rate_limit_;
     current_limit := current_limit_;
     existing_midpoint := existing_midpoint_;
     expected_emissions := Int 0 |}.

Definition mode : ChainData := chain "Mode" 250 10000 1 0 5000.
Definition lisk : ChainData := chain "Lisk" 250 4000 0 0 5000.
Definition fraxtal : ChainData := chain "Fraxtal" 500 5000 0 6000 6000.

Definition configured_chains : list (Z * ChainData) :=
  [(34443, mode); (1135, lisk); (252, fraxtal)].

(** Mode with 35 of 1000 votes and a buffer of 420 at its midpoint: the
    padded emissions are [10000 * (35 / 1000) * 1.2], which is
    420.00000000000006 in binary64. *)
Definition mode_at_midpoint : ChainData := chain "Mode" 35 840 0 420 420.

(** The same chain with 343 left of its buffer. *)
Definition mode_burned : ChainData := chain "Mode" 35 840 0 343 420.

(** Mode with all the votes, weekly emissions of [10 ^ 24] and an existing
    cap one below the adjusted cap [10 ^ 24 * 2 * 1.2], which is
    2399999999999999798673408 in binary64. *)
Definition mode_large : ChainData :=
  chain "Mode" 1 2399999999999999798673407 0 (2 * 10 ^ 24) (2 * 10 ^ 24).

(** The hub answers every [get_block("latest")] with [hub_timestamp], the
    chains' own endpoints with [EARLY]; the hub's bridging module has a cap of
    100000, of which 50000, its midpoint, is left on the burn side. *)
Definition scenario (hub_timestamp total_supply weekly_ : Z) : Provider :=
  {| latest_block_timestamp := fun e _ =>
       match e with
       | Hub => Some hub_timestamp
       | Spoke _ => Some EARLY
       end;
     totalSupply := Some total_supply;
     weekly := Some weekly_;
     bufferCap := Some 100000;
     rateLimitPerSecond := Some 1;
     burningCurrentLimitOf := Some 50000 |}.

(** 60480 seconds before [replenish_ts]. *)
Definition MIDWEEK : Z := EPOCH_START + WEEK - 600 - 60480.

End F64.

(** * The projector in exact arithmetic *)

(** ** The emission projector *)

Section Projector.

(** The margins [BUFFER_MARGIN] and [RPS_MARGIN] of [utils/constants.py],
    which is not part of the sources at hand, are parameters. *)
Variables BUFFER_MARGIN RPS_MARGIN : Q.

(** *** The values computed for one chain (lines 95-107) *)

(** [weights_percentage = chain_data.total_voting_weight / total_voting_weight],
    when the division does not raise. *)
Definition weights_percentage (chain_data : ChainData) (total_voting_weight_ : Z) : Q :=
  (inject_Z (total_voting_weight chain_data) / inject_Z total_voting_weight_)%Q.

(** [min_emissions = weekly * weights_percentage] *)
Definition min_emissions (weekly_ : Z) (weights_percentage_ : Q) : Q :=
  (inject_Z weekly_ * weights_percentage_)%Q.

(** [min_buffer_cap = min_emissions * 2] *)
Definition min_buffer_cap (min_emissions_ : Q) : Q := (min_emissions_ * 2)%Q.

(** [chain_data.expected_emissions = min_emissions * BUFFER_MARGIN] *)
Definition padded_emissions (min_emissions_ : Q) : Q :=
  (min_emissions_ * BUFFER_MARGIN)%Q.

(** [adjusted_buffer_cap = min_buffer_cap * BUFFER_MARGIN] *)
Definition adjusted_buffer_cap (min_buffer_cap_ : Q) : Q :=
  (min_buffer_cap_ * BUFFER_MARGIN)%Q.

(** [adjusted_rps = (min_buffer_cap / WEEK) * RPS_MARGIN]; [WEEK] is not
    zero, the division cannot raise. *)
Definition adjusted_rps (min_buffer_cap_ : Q) : Q :=
  ((min_buffer_cap_ / inject_Z WEEK) * RPS_MARGIN)%Q.

(** The summand of [op_buffer_delta]:
    [adjusted_buffer_cap - existing_buffer_cap
       if adjusted_buffer_cap > existing_buffer_cap else 0] *)
Definition cap_increase (adjusted_buffer_cap_ : Q) (existing_buffer_cap_ : Z) : Q :=
  if Qgtb adjusted_buffer_cap_ (inject_Z existing_buffer_cap_)
  then (adjusted_buffer_cap_ - inject_Z existing_buffer_cap_)%Q
  else 0%Q.

(** *** The primary check (lines 114-117, 133) *)

(** [replenished_buffer = min(expected_buffer, chain_data.existing_midpoint)]
    with [expected_buffer = current_limit + existing_rate_limit *
    time_to_next_epoch]; all of them [int]s. *)
Definition primary_replenished_buffer (chain_data : ChainData) (timestamp : Z) : Z :=
  let time_to_next_epoch := primary_window timestamp in
  let expected_buffer :=
    current_limit chain_data + existing_rate_limit chain_data * time_to_next_epoch in
  Z.min expected_buffer (existing_midpoint chain_data).

(** [chain_data.expected_emissions > replenished_buffer] *)
Definition primary_insufficient (chain_data : ChainData) (timestamp : Z) : bool :=
  Qgtb (expected_emissions chain_data)
       (inject_Z (primary_replenished_buffer chain_data timestamp)).

(** *** The contingency check (lines 143-169, and again lines 189-211) *)

(** [expected_buffer = current_limit + (adjusted_rps * time_to_next_epoch)] *)
Definition contingency_expected_buffer
    (current_limit_ : Z) (adjusted_rps_ : Q) (time_to_next_epoch : Z) : Q :=
  (inject_Z current_limit_ + adjusted_rps_ * inject_Z time_to_next_epoch)%Q.

(** [replenished_buffer = min(expected_buffer, adjusted_buffer_cap / 2)] *)
Definition contingency_replenished_buffer
    (current_limit_ : Z) (adjusted_buffer_cap_ adjusted_rps_ : Q)
    (time_to_next_epoch : Z) : Q :=
  py_min (contingency_expected_buffer current_limit_ adjusted_rps_ time_to_next_epoch)
         (adjusted_buffer_cap_ / 2)%Q.

(** [temporary_rps = buffer_delta / time_to_next_epoch * RPS_MARGIN] with
    [buffer_delta = (adjusted_buffer_cap / 2) - current_limit]. *)
Definition temporary_rps
    (current_limit_ : Z) (adjusted_buffer_cap_ : Q) (time_to_next_epoch : Z) : M Q :=
  let buffer_delta := (adjusted_buffer_cap_ / 2 - inject_Z current_limit_)%Q in
  q ← truediv buffer_delta (inject_Z time_to_next_epoch);
  mret (q * RPS_MARGIN)%Q.

(** The branch on [expected_emissions > replenished_buffer] and the
    [NewLimitData] each side builds.  The source has this text twice, for a
    chain (lines 150-169) and for the hub (lines 196-211). *)
Definition contingency_check
    (name_ : string) (current_limit_ : Z) (expected_emissions_ : Q)
    (adjusted_buffer_cap_ adjusted_rps_ : Q) (time_to_next_epoch : Z)
    : M NewLimitData :=
  let replenished_buffer :=
    contingency_replenished_buffer
      current_limit_ adjusted_buffer_cap_ adjusted_rps_ time_to_next_epoch in
  if Qgtb expected_emissions_ replenished_buffer then
    temporary_rps_ ← temporary_rps current_limit_ adjusted_buffer_cap_ time_to_next_epoch;
    mret {| limit_name := name_; buffer_cap := adjusted_buffer_cap_;
            rate_limit := adjusted_rps_; temporary_rate_limit := temporary_rps_ |}
  else
    mret {| limit_name := name_; buffer_cap := adjusted_buffer_cap_;
            rate_limit := adjusted_rps_; temporary_rate_limit := 0%Q |}.

(** What [contingency_check] returns when the division of [temporary_rps]
    does not raise: the temporary rate, and the record. *)
Definition temporary_rate
    (current_limit_ : Z) (expected_emissions_ : Q)
    (adjusted_buffer_cap_ adjusted_rps_ : Q) (time_to_next_epoch : Z) : Q :=
  if Qgtb expected_emissions_
          (contingency_replenished_buffer
             current_limit_ adjusted_buffer_cap_ adjusted_rps_ time_to_next_epoch)
  then ((adjusted_buffer_cap_ / 2 - inject_Z current_limit_)
        / inject_Z time_to_next_epoch * RPS_MARGIN)%Q
  else 0%Q.

Definition recommendation
    (name_ : string) (current_limit_ : Z) (expected_emissions_ : Q)
    (adjusted_buffer_cap_ adjusted_rps_ : Q) (time_to_next_epoch : Z)
    : NewLimitData :=
  {| limit_name := name_; buffer_cap := adjusted_buffer_cap_;
     rate_limit := adjusted_rps_;
     temporary_rate_limit :=
       temporary_rate current_limit_ expected_emissions_
         adjusted_buffer_cap_ adjusted_rps_ time_to_next_epoch |}.

(** *** The loop over the chains (lines 88-171) *)

(** The local variables of [main] that the loop updates. *)
Record Locals : Type := {
  new_chain_limits : gmap Z NewLimitData;
  op_buffer_delta : Q;
  op_expected_emissions : Q
}.

(** Lines 88-91. *)
Definition init_locals : Locals :=
  {| new_chain_limits := ∅; op_buffer_delta := 0%Q; op_expected_emissions := 0%Q |}.

(** One turn of [for chain_id, chain_data in chains.items()]; it returns the
    updated locals and the chain's record with [expected_emissions] set. *)
Definition process_chain
    (w : Provider) (total_voting_weight_ weekly_ : Z)
    (l : Locals) (chain_id : Z) (chain_data : ChainData)
    : M (Locals * ChainData) :=
  weights_percentage_ ←
    truediv (inject_Z (total_voting_weight chain_data)) (inject_Z total_voting_weight_);
  let min_emissions_ := min_emissions weekly_ weights_percentage_ in
  let min_buffer_cap_ := min_buffer_cap min_emissions_ in
  let chain_data := set_expected_emissions chain_data (padded_emissions min_emissions_) in
  let adjusted_buffer_cap_ := adjusted_buffer_cap min_buffer_cap_ in
  let adjusted_rps_ := adjusted_rps min_buffer_cap_ in
  let op_buffer_delta_ :=
    (op_buffer_delta l
     + cap_increase adjusted_buffer_cap_ (existing_buffer_cap chain_data))%Q in
  let op_expected_emissions_ :=
    (op_expected_emissions l + expected_emissions chain_data)%Q in
  timestamp ← web3_latest_timestamp w;
  if primary_insufficient chain_data timestamp then
    timestamp ← web3_latest_timestamp w;
    let time_to_next_epoch := contingency_window timestamp in
    limits ← contingency_check (name chain_data) (current_limit chain_data)
               (expected_emissions chain_data)
               adjusted_buffer_cap_ adjusted_rps_ time_to_next_epoch;
    mret ({| new_chain_limits := <[chain_id := limits]> (new_chain_limits l);
             op_buffer_delta := op_buffer_delta_;
             op_expected_emissions := op_expected_emissions_ |}, chain_data)
  else
    mret ({| new_chain_limits := new_chain_limits l;
             op_buffer_delta := op_buffer_delta_;
             op_expected_emissions := op_expected_emissions_ |}, chain_data).

(** The whole loop, over the items of the dict [chains] in their order; the
    second component collects the updated records. *)
Fixpoint process_chains
    (w : Provider) (total_voting_weight_ weekly_ : Z)
    (l : Locals) (chains : list (Z * ChainData))
    : M (Locals * list (Z * ChainData)) :=
  match chains with
  | [] => mret (l, [])
  | (chain_id, chain_data) :: rest =>
      '(l', chain_data') ←
        process_chain w total_voting_weight_ weekly_ l chain_id chain_data;
      '(l'', rest') ← process_chains w total_voting_weight_ weekly_ l' rest;
      mret (l'', (chain_id, chain_data') :: rest')
  end.

(** *** The hub (lines 173-211) *)

Definition process_hub (w : Provider) (l : Locals) : M (gmap Z NewLimitData) :=
  if Qgtb (op_buffer_delta l) 0 then
    op_buffer_cap ← call (bufferCap w);
    op_rate_limit ← call (rateLimitPerSecond w);
    op_current_limit ← call (burningCurrentLimitOf w);
    timestamp ← web3_latest_timestamp w;
    let time_to_next_epoch := contingency_window timestamp in
    let adjusted_buffer_cap_ := (op_buffer_delta l + inject_Z op_buffer_cap)%Q in
    min_buffer_cap_ ← truediv adjusted_buffer_cap_ BUFFER_MARGIN;
    let adjusted_rps_ := adjusted_rps min_buffer_cap_ in
    limits ← contingency_check "Optimism" op_current_limit
               (op_expected_emissions l)
               adjusted_buffer_cap_ adjusted_rps_ time_to_next_epoch;
    mret (<[OPTIMISM := limits]> (new_chain_limits l))
  else
    mret (new_chain_limits l).

(** *** [main] (lines 79-213)

    [chains] is the module-level dict as [fetch_pools],
    [fetch_voting_weights] and [fetch_existing_buffers] have filled it.  The
    [print]s are left out. *)
Definition main (w : Provider) (chains : list (Z * ChainData))
    : M (gmap Z NewLimitData) :=
  total_voting_weight_ ← call (totalSupply w);
  weekly_ ← call (weekly w);
  '(l, _) ← process_chains w total_voting_weight_ weekly_ init_locals chains;
  process_hub w l.

(** *** The values of one chain, as functions of its record

    The locals of one turn of the loop, named after the chain they are
    computed for: [V] is [total_voting_weight] (line 80) and [wk] is
    [weekly] (line 82). *)
Definition chain_min_emissions (V wk : Z) (cd : ChainData) : Q :=
  min_emissions wk (weights_percentage cd V).
Definition chain_expected_emissions (V wk : Z) (cd : ChainData) : Q :=
  padded_emissions (chain_min_emissions V wk cd).
Definition chain_buffer_cap (V wk : Z) (cd : ChainData) : Q :=
  adjusted_buffer_cap (min_buffer_cap (chain_min_emissions V wk cd)).
Definition chain_rps (V wk : Z) (cd : ChainData) : Q :=
  adjusted_rps (min_buffer_cap (chain_min_emissions V wk cd)).
Definition chain_updated (V wk : Z) (cd : ChainData) : ChainData :=
  set_expected_emissions cd (chain_expected_emissions V wk cd).
Definition chain_recommendation (V wk : Z) (cd : ChainData) (timestamp : Z) : NewLimitData :=
  recommendation (name cd) (current_limit cd) (chain_expected_emissions V wk cd)
    (chain_buffer_cap V wk cd) (chain_rps V wk cd) (contingency_window timestamp).

(** The locals after a turn, given whether an entry is written. *)
Definition locals_after (V wk : Z) (l : Locals) (chain_id : Z) (cd : ChainData)
    (entry : option NewLimitData) : Locals :=
  {| new_chain_limits :=
       match entry with
       | Some limits => <[chain_id := limits]> (new_chain_limits l)
       | None => new_chain_limits l
       end;
     op_buffer_delta :=
       (op_buffer_delta l
        + cap_increase (chain_buffer_cap V wk cd) (existing_buffer_cap cd))%Q;
     op_expected_emissions :=
       (op_expected_emissions l + chain_expected_emissions V wk cd)%Q |}.

(** The sum the spec gives for [buffer_delta_total]: over the chains,
    [max(0, adjusted_buffer_cap_i - existing_buffer_cap_i)]. *)
Fixpoint buffer_delta_total (V wk : Z) (chains : list (Z * ChainData)) : Q :=
  match chains with
  | [] => 0%Q
  | (_, cd) :: rest =>
      (Qmax 0 (chain_buffer_cap V wk cd - inject_Z (existing_buffer_cap cd))
       + buffer_delta_total V wk rest)%Q
  end.


(** *** The values of the hub

    The locals of lines 185-187, given the loop's final locals [l] and the
    hub's [bufferCap] read. *)
Definition hub_buffer_cap (l : Locals) (op_buffer_cap : Z) : Q :=
  (op_buffer_delta l + inject_Z op_buffer_cap)%Q.
Definition hub_rps (l : Locals) (op_buffer_cap : Z) : Q :=
  adjusted_rps (hub_buffer_cap l op_buffer_cap / BUFFER_MARGIN)%Q.
Definition hub_recommendation
    (l : Locals) (op_buffer_cap op_current_limit timestamp : Z) : NewLimitData :=
  recommendation "Optimism" op_current_limit (op_expected_emissions l)
    (hub_buffer_cap l op_buffer_cap) (hub_rps l op_buffer_cap)
    (contingency_window timestamp).



(** *** Scenarios

    The dict [chains] of the source (lines 16-20) holds Mode, Lisk and
    Fraxtal.  The records below fill it with small numbers; the providers
    answer with one fixed timestamp on the hub and another one on the chains'
    own endpoints; the moments [EARLY] and [LATE] are the ones above. *)

(** The margins of the spec's scenario A: 1.2 and 1.1. *)
Definition BUFFER_MARGIN_A : Q := 12 # 10.
Definition RPS_MARGIN_A : Q := 11 # 10.

(** [x] is [y] when both are rounded to four decimals: the reading of the
    spec's "approximately 0.0109". *)
Definition approx4 (x y : Q) : Prop :=
  (y - (5 # 100000) <= x)%Q /\ (x <= y + (5 # 100000))%Q.

Definition mode : ChainData :=
  {| name := "Mode"; pools := []; total_voting_weight := 250;
     existing_buffer_cap := 10000; existing_rate_limit := 1;
     current_limit := 0; existing_midpoint := 5000; expected_emissions := 0%Q |}.

Definition lisk : ChainData :=
  {| name := "Lisk"; pools := []; total_voting_weight := 250;
     existing_buffer_cap := 4000; existing_rate_limit := 0;
     current_limit := 0; existing_midpoint := 5000; expected_emissions := 0%Q |}.

Definition fraxtal : ChainData :=
  {| name := "Fraxtal"; pools := []; total_voting_weight := 500;
     existing_buffer_cap := 5000; existing_rate_limit := 0;
     current_limit := 6000; existing_midpoint := 6000; expected_emissions := 0%Q |}.

Definition configured_chains : list (Z * ChainData) :=
  [(34443, mode); (1135, lisk); (252, fraxtal)].

Definition scenario (hub_timestamp total_supply : Z) : Provider :=
  {| latest_block_timestamp := fun e _ =>
       match e with
       | Hub => Some hub_timestamp
       | Spoke _ => Some EARLY
       end;
     totalSupply := Some total_supply;
     weekly := Some 10000;
     bufferCap := Some 100000;
     rateLimitPerSecond := Some 1;
     burningCurrentLimitOf := Some 1000000 |}.

(** A run starts with no timestamp read. *)
Definition run {A} (m : M A) : result A :=
  match m 0%nat with
  | Ok (a, _) => Ok a
  | Raise e => Raise e
  end.


(** ** The fetches (lines 31-66)

    [fetch_pools], [fetch_voting_weights] and [fetch_existing_buffers] fill
    the dict [chains] before the projector runs.  They read contracts only;
    the dict is passed in and returned.  Besides a failed call they can end
    with [KeyError] ([chains[chainid]] on an id that is not a key) and with
    [IndexError] ([limit_data[-1]] on an empty tuple). *)
Inductive fetch_exn : Type :=
  | KeyError (key : Z)
  | IndexError
  | Exn (e : exn).

Inductive outcome (A : Type) : Type :=
  | Done (a : A)
  | Failed (e : fetch_exn).
#[global] Arguments Done {A} a.
#[global] Arguments Failed {A} e.

#[global] Instance outcome_ret : MRet outcome := @Done.
#[global] Instance outcome_bind : MBind outcome := fun A B k m =>
  match m with
  | Done a => k a
  | Failed e => Failed e
  end.

(** What the contracts of the fetches answer; [None] stands for a call that
    raises.  The pool factories, the pools and the voter live on the hub; the
    XERC20 reads of [fetch_existing_buffers] go to each chain's own endpoint
    and are indexed by the chain's id. *)
Record Contracts : Type := {
  root_allPools : option (list string);
  cl_root_allPools : option (list string);
  pool_chainid : string -> option Z;
  voter_weights : string -> option Z;
  xerc20_bufferCap : Z -> option Z;
  xerc20_rateLimitPerSecond : Z -> option Z;
  xerc20_mintingCurrentLimitOf : Z -> option Z;
  xerc20_rateLimits : Z -> option (list Z)
}.

Definition fetch_call {A} (r : option A) : outcome A :=
  match r with
  | Some v => Done v
  | None => Failed (Exn RpcError)
  end.

(** Modelled from the spec: [PoolData(pool)], the constructor of
    [utils/types.py], which is not part of the sources at hand; the voting
    power of a new pool is taken to be 0 ([fetch_voting_weights] overwrites
    it). *)
Definition new_pool (pool : string) : PoolData :=
  {| address := pool; voting_power := 0 |}.

(** [chain_data.pools = ps] *)
Definition with_pools (cd : ChainData) (ps : list PoolData) : ChainData :=
  {| name := name cd; pools := ps;
     total_voting_weight := total_voting_weight cd;
     existing_buffer_cap := existing_buffer_cap cd;
     existing_rate_limit := existing_rate_limit cd;
     current_limit := current_limit cd;
     existing_midpoint := existing_midpoint cd;
     expected_emissions := expected_emissions cd |}.

(** [chain_data.pools = ps; chain_data.total_voting_weight = v] *)
Definition with_votes (cd : ChainData) (ps : list PoolData) (v : Z) : ChainData :=
  {| name := name cd; pools := ps;
     total_voting_weight := v;
     existing_buffer_cap := existing_buffer_cap cd;
     existing_rate_limit := existing_rate_limit cd;
     current_limit := current_limit cd;
     existing_midpoint := existing_midpoint cd;
     expected_emissions := expected_emissions cd |}.

(** The four assignments of lines 61-66. *)
Definition with_buffers (cd : ChainData) (cap rate limit midpoint : Z) : ChainData :=
  {| name := name cd; pools := pools cd;
     total_voting_weight := total_voting_weight cd;
     existing_buffer_cap := cap;
     existing_rate_limit := rate;
     current_limit := limit;
     existing_midpoint := midpoint;
     expected_emissions := expected_emissions cd |}.

(** [chains[chainid].pools.append(pool)]: [KeyError] when [chainid] is not a
    key. *)
Fixpoint append_pool (chainid : Z) (pool : PoolData) (chains : list (Z * ChainData))
    : outcome (list (Z * ChainData)) :=
  match chains with
  | [] => Failed (KeyError chainid)
  | (chain_id, chain_data) :: rest =>
      if decide (chain_id = chainid)
      then Done ((chain_id, with_pools chain_data (pools chain_data ++ [pool])) :: rest)
      else rest' ← append_pool chainid pool rest;
           mret ((chain_id, chain_data) :: rest')
  end.

(** The loop of lines 40-43. *)
Fixpoint organize_pools (c : Contracts) (root_pools : list string)
    (chains : list (Z * ChainData)) : outcome (list (Z * ChainData)) :=
  match root_pools with
  | [] => mret chains
  | pool :: rest =>
      chainid ← fetch_call (pool_chainid c pool);
      chains' ← append_pool chainid (new_pool pool) chains;
      organize_pools c rest chains'
  end.

(** [fetch_pools] (lines 31-43). *)
Definition fetch_pools (c : Contracts) (chains : list (Z * ChainData))
    : outcome (list (Z * ChainData)) :=
  root_pools ← fetch_call (root_allPools c);
  cl_root_pools ← fetch_call (cl_root_allPools c);
  organize_pools c (root_pools ++ cl_root_pools) chains.

(** The inner loop of [fetch_voting_weights] (lines 49-51), from the chain's
    total so far. *)
Fixpoint weigh_pools (c : Contracts) (pools_ : list PoolData) (total : Z)
    : outcome (list PoolData * Z) :=
  match pools_ with
  | [] => mret ([], total)
  | pool :: rest =>
      voting_power_ ← fetch_call (voter_weights c (address pool));
      '(rest', total') ← weigh_pools c rest (total + voting_power_);
      mret ({| address := address pool; voting_power := voting_power_ |} :: rest', total')
  end.

(** The outer loop of [fetch_voting_weights] (lines 48-52), from
    [superchain_votes] so far. *)
Fixpoint weigh_chains (c : Contracts) (chains : list (Z * ChainData))
    (superchain_votes : Z) : outcome (list (Z * ChainData) * Z) :=
  match chains with
  | [] => mret ([], superchain_votes)
  | (chain_id, chain_data) :: rest =>
      '(pools', total) ←
        weigh_pools c (pools chain_data) (total_voting_weight chain_data);
      '(rest', superchain_votes') ← weigh_chains c rest (superchain_votes + total);
      mret ((chain_id, with_votes chain_data pools' total) :: rest', superchain_votes')
  end.

(** [fetch_voting_weights] (lines 46-54): the updated dict and the returned
    [superchain_votes]. *)
Definition fetch_voting_weights (c : Contracts) (chains : list (Z * ChainData))
    : outcome (list (Z * ChainData) * Z) :=
  weigh_chains c chains 0.

(** [limit_data[-1]] *)
Definition last_item (limit_data : list Z) : outcome Z :=
  match last limit_data with
  | Some x => Done x
  | None => Failed IndexError
  end.

(** [fetch_existing_buffers] (lines 57-66). *)
Fixpoint fetch_existing_buffers (c : Contracts) (chains : list (Z * ChainData))
    : outcome (list (Z * ChainData)) :=
  match chains with
  | [] => mret []
  | (chain_id, chain_data) :: rest =>
      cap ← fetch_call (xerc20_bufferCap c chain_id);
      rate ← fetch_call (xerc20_rateLimitPerSecond c chain_id);
      limit ← fetch_call (xerc20_mintingCurrentLimitOf c chain_id);
      limit_data ← fetch_call (xerc20_rateLimits c chain_id);
      midpoint ← last_item limit_data;
      rest' ← fetch_existing_buffers c rest;
      mret ((chain_id, with_buffers chain_data cap rate limit midpoint) :: rest')
  end.

(** [main] from its first line (lines 70-213): the three fetches, then the
    projector. *)
Definition main_with_fetches (c : Contracts) (w : Provider)
    (chains : list (Z * ChainData)) : outcome (gmap Z NewLimitData) :=
  chains1 ← fetch_pools c chains;
  '(chains2, total_voting_superchain) ← fetch_voting_weights c chains1;
  chains3 ← fetch_existing_buffers c chains2;
  match run (main w chains3) with
  | Ok new_chain_limits_ => Done new_chain_limits_
  | Raise e => Failed (Exn e)
  end.

(** [not new_chain_limits] (line 219): the report says "No new limits
    required." *)
Definition no_new_limits_required (new_chain_limits_ : gmap Z NewLimitData) : bool :=
  bool_decide (new_chain_limits_ = ∅).

(** *** Sums used to state what the fetches compute *)

(** The pools of the list that live on [chainid]. *)
Definition pools_on (c : Contracts) (chainid : Z) (root_pools : list string)
    : list string :=
  filter (fun pool => pool_chainid c pool = Some chainid) root_pools.

Definition sum_Z (l : list Z) : Z := foldr Z.add 0 l.

(** The voter's weight of a pool, 0 when the call raises. *)
Definition weight_of (c : Contracts) (pool : string) : Z :=
  default 0 (voter_weights c pool).

(** A pool with the voter's weight of its address. *)
Definition weighed (c : Contracts) (pool : PoolData) : PoolData :=
  {| address := address pool; voting_power := weight_of c (address pool) |}.

Definition total_weight (c : Contracts) (root_pools : list string) : Z :=
  sum_Z (weight_of c <$> root_pools).

(** The sum of the chains' vote weights. *)
Definition votes_of_chains (chains : list (Z * ChainData)) : Z :=
  sum_Z ((fun kv => total_voting_weight kv.2) <$> chains).

(** The weights of all the pools held by the chains. *)
Definition pool_weights_of_chains (c : Contracts) (chains : list (Z * ChainData)) : Z :=
  sum_Z ((fun kv => total_weight c (address <$> pools kv.2)) <$> chains).

(** *** Scenarios of the fetches

    The dict as the module builds it (lines 16-20), and contracts with three
    pools, one of them listed by both factories. *)
Definition fresh (name_ : string) : ChainData :=
  {| name := name_; pools := []; total_voting_weight := 0;
     existing_buffer_cap := 0; existing_rate_limit := 0;
     current_limit := 0; existing_midpoint := 0; expected_emissions := 0%Q |}.

Definition fresh_chains : list (Z * ChainData) :=
  [(34443, fresh "Mode"); (1135, fresh "Lisk"); (252, fresh "Fraxtal")].

Definition ROOT_POOLS : list string := ["p1"%string; "p2"%string].
Definition CL_ROOT_POOLS : list string := ["p3"%string; "p1"%string].

Definition contracts (chainid_of_p2 : Z) (limit_data : list Z) : Contracts :=
  {| root_allPools := Some ROOT_POOLS;
     cl_root_allPools := Some CL_ROOT_POOLS;
     pool_chainid := fun pool =>
       if decide (pool = "p1"%string) then Some 34443
       else if decide (pool = "p2"%string) then Some chainid_of_p2
       else if decide (pool = "p3"%string) then Some 252
       else None;
     voter_weights := fun pool =>
       if decide (pool = "p1"%string) then Some 100
       else if decide (pool = "p2"%string) then Some 250
       else if decide (pool = "p3"%string) then Some 500
       else None;
     xerc20_bufferCap := fun _ => Some 10000;
     xerc20_rateLimitPerSecond := fun _ => Some 1;
     xerc20_mintingCurrentLimitOf := fun _ => Some 0;
     xerc20_rateLimits := fun _ => Some limit_data |}.


(** * Properties *)

(** ** Numbers *)

Lemma Qgtb_true (a b : Q) : Qgtb a b = true <-> (b < a)%Q.
Proof.
  unfold Qgtb. rewrite negb_true_iff, <- not_true_iff_false, Qle_bool_iff.
  split; [apply Qnot_le_lt | apply Qlt_not_le].
Qed.

Lemma Qgtb_false (a b : Q) : Qgtb a b = false <-> (a <= b)%Q.
Proof. unfold Qgtb. rewrite negb_false_iff. apply Qle_bool_iff. Qed.

Lemma py_min_le_r (a b : Q) : (py_min a b <= b)%Q.
Proof.
  unfold py_min. destruct (Qgtb a b) eqn:E.
  - apply Qle_refl.
  - now apply Qgtb_false.
Qed.

Lemma py_min_le_l (a b : Q) : (py_min a b <= a)%Q.
Proof.
  unfold py_min. destruct (Qgtb a b) eqn:E.
  - apply Qlt_le_weak. now apply Qgtb_true.
  - apply Qle_refl.
Qed.

Lemma py_min_glb (a b c : Q) : (c <= a)%Q -> (c <= b)%Q -> (c <= py_min a b)%Q.
Proof. unfold py_min. now destruct (Qgtb a b). Qed.

Lemma inject_Z_nonzero (z : Z) : z <> 0 -> Qeq_bool (inject_Z z) 0 = false.
Proof.
  intros H. apply not_true_iff_false. rewrite Qeq_bool_iff.
  unfold Qeq. simpl. lia.
Qed.

(** ** The monad *)

Lemma bind_Ok {A B} (m : M A) (k : A -> M B) s a s' :
  m s = Ok (a, s') -> (m ≫= k) s = k a s'.
Proof. intros H. unfold mbind, M_bind, bind. now rewrite H. Qed.

Lemma bind_Raise {A B} (m : M A) (k : A -> M B) s e :
  m s = Raise e -> (m ≫= k) s = Raise e.
Proof. intros H. unfold mbind, M_bind, bind. now rewrite H. Qed.

Lemma bind_Ok_inv {A B} (m : M A) (k : A -> M B) s b s' :
  (m ≫= k) s = Ok (b, s') ->
  exists a s1, m s = Ok (a, s1) /\ k a s1 = Ok (b, s').
Proof.
  unfold mbind, M_bind, bind. destruct (m s) as [[a s1]|e]; [eauto | discriminate].
Qed.

Lemma truediv_Ok (a b : Q) s : Qeq_bool b 0 = false -> truediv a b s = Ok ((a / b)%Q, s).
Proof. intros H. unfold truediv. now rewrite H. Qed.

Lemma truediv_zero (a b : Q) s : Qeq_bool b 0 = true -> truediv a b s = Raise ZeroDivisionError.
Proof. intros H. unfold truediv. now rewrite H. Qed.

Lemma truediv_Ok_inv (a b q : Q) s s' :
  truediv a b s = Ok (q, s') -> Qeq_bool b 0 = false /\ q = (a / b)%Q /\ s' = s.
Proof.
  unfold truediv. destruct (Qeq_bool b 0); [discriminate |].
  unfold ret. intros [= <- <-]. auto.
Qed.

(** ** Epoch windows *)

Lemma WEEK_pos : 0 < WEEK.
Proof. reflexivity. Qed.

Lemma epoch_next_gt (timestamp : Z) : timestamp < epoch_next timestamp.
Proof.
  unfold epoch_next. pose proof (Z.mod_pos_bound timestamp WEEK WEEK_pos). lia.
Qed.

Lemma primary_window_bounds (timestamp : Z) :
  0 < primary_window timestamp <= WEEK.
Proof.
  unfold primary_window, epoch_next.
  pose proof (Z.mod_pos_bound timestamp WEEK WEEK_pos). lia.
Qed.

Lemma contingency_window_pos (timestamp : Z) : 0 < contingency_window timestamp.
Proof.
  unfold contingency_window.
  destruct (Z.ltb_spec timestamp (replenish_ts timestamp)).
  - lia.
  - pose proof (epoch_next_gt timestamp). lia.
Qed.

Lemma contingency_window_at_replenish_ts (timestamp : Z) :
  timestamp = replenish_ts timestamp ->
  contingency_window timestamp = epoch_next timestamp - timestamp
  /\ epoch_next timestamp - timestamp = 600.
Proof.
  intros H. unfold contingency_window.
  rewrite (proj2 (Z.ltb_ge _ _)) by lia.
  split; [reflexivity |]. unfold replenish_ts in H. lia.
Qed.

(** The temporary rate on a positive window: the division does not raise. *)
Lemma temporary_rps_Ok (current_limit_ : Z) (cap : Q) (t : Z) s :
  0 < t ->
  temporary_rps current_limit_ cap t s
  = Ok (((cap / 2 - inject_Z current_limit_) / inject_Z t * RPS_MARGIN)%Q, s).
Proof.
  intros Ht. unfold temporary_rps.
  erewrite bind_Ok by (apply truediv_Ok, inject_Z_nonzero; lia).
  reflexivity.
Qed.


Lemma contingency_check_Ok name_ cl ee cap rps t s :
  0 < t ->
  contingency_check name_ cl ee cap rps t s = Ok (recommendation name_ cl ee cap rps t, s).
Proof.
  intros Ht. unfold contingency_check, recommendation, temporary_rate.
  destruct (Qgtb ee _); [| reflexivity].
  erewrite bind_Ok by (now apply temporary_rps_Ok). reflexivity.
Qed.

Lemma web3_latest_timestamp_inv w s t s' :
  web3_latest_timestamp w s = Ok (t, s') ->
  latest_block_timestamp w Hub s = Some t /\ s' = S s.
Proof.
  unfold web3_latest_timestamp.
  destruct (latest_block_timestamp w Hub s); [| discriminate].
  intros [= <- <-]. auto.
Qed.

Lemma web3_latest_timestamp_Ok w s t :
  latest_block_timestamp w Hub s = Some t ->
  web3_latest_timestamp w s = Ok (t, S s).
Proof. intros H. unfold web3_latest_timestamp. now rewrite H. Qed.

Lemma call_inv r v s s' : call r s = Ok (v, s') -> r = Some v /\ s' = s.
Proof. destruct r; simpl; [| discriminate]. intros [= <- <-]. auto. Qed.

(** ** One turn of the loop *)

(** The outcome of a turn, case by case. *)
Lemma process_chain_eq w V wk l chain_id cd s :
  process_chain w V wk l chain_id cd s =
  if Qeq_bool (inject_Z V) 0 then Raise ZeroDivisionError else
  match latest_block_timestamp w Hub s with
  | None => Raise RpcError
  | Some t1 =>
      if primary_insufficient (chain_updated V wk cd) t1 then
        match latest_block_timestamp w Hub (S s) with
        | None => Raise RpcError
        | Some t2 =>
            Ok ((locals_after V wk l chain_id cd (Some (chain_recommendation V wk cd t2)),
                 chain_updated V wk cd), S (S s))
        end
      else Ok ((locals_after V wk l chain_id cd None, chain_updated V wk cd), S s)
  end.
Proof.
  unfold process_chain.
  destruct (Qeq_bool (inject_Z V) 0) eqn:EV.
  { now erewrite bind_Raise by (now apply truediv_zero). }
  erewrite bind_Ok by (now apply truediv_Ok).
  cbv zeta.
  destruct (latest_block_timestamp w Hub s) as [t1|] eqn:E1.
  2:{ apply bind_Raise. unfold web3_latest_timestamp. now rewrite E1. }
  erewrite bind_Ok by (apply web3_latest_timestamp_Ok; eassumption).
  fold (weights_percentage cd V). fold (chain_min_emissions V wk cd).
  fold (chain_expected_emissions V wk cd). fold (chain_updated V wk cd).
  fold (chain_buffer_cap V wk cd). fold (chain_rps V wk cd).
  destruct (primary_insufficient (chain_updated V wk cd) t1); [| reflexivity].
  destruct (latest_block_timestamp w Hub (S s)) as [t2|] eqn:E2.
  2:{ apply bind_Raise. unfold web3_latest_timestamp. now rewrite E2. }
  erewrite bind_Ok by (apply web3_latest_timestamp_Ok; eassumption).
  erewrite bind_Ok by (apply contingency_check_Ok, contingency_window_pos).
  reflexivity.
Qed.

Lemma process_chain_inv w V wk l chain_id cd s l' cd' s' :
  process_chain w V wk l chain_id cd s = Ok ((l', cd'), s') ->
  V <> 0 /\ cd' = chain_updated V wk cd /\
  exists t1, latest_block_timestamp w Hub s = Some t1 /\
    ((primary_insufficient (chain_updated V wk cd) t1 = false
      /\ l' = locals_after V wk l chain_id cd None /\ s' = S s)
     \/ (primary_insufficient (chain_updated V wk cd) t1 = true
         /\ exists t2, latest_block_timestamp w Hub (S s) = Some t2
            /\ l' = locals_after V wk l chain_id cd (Some (chain_recommendation V wk cd t2))
            /\ s' = S (S s))).
Proof.
  rewrite process_chain_eq.
  destruct (Qeq_bool (inject_Z V) 0) eqn:EV; [discriminate |].
  assert (V <> 0) by (intros ->; discriminate).
  destruct (latest_block_timestamp w Hub s) as [t1|]; [| discriminate].
  destruct (primary_insufficient _ t1) eqn:EP.
  - destruct (latest_block_timestamp w Hub (S s)) as [t2|]; [| discriminate].
    intros [= <- <- <-]. repeat split; try assumption.
    exists t1. split; [reflexivity |]. right. split; [assumption |].
    exists t2. auto.
  - intros [= <- <- <-]. repeat split; try assumption.
    exists t1. split; [reflexivity |]. left. auto.
Qed.

(** ** The loop *)

Lemma process_chains_cons w V wk l chain_id cd rest s :
  process_chains w V wk l ((chain_id, cd) :: rest) s =
  match process_chain w V wk l chain_id cd s with
  | Ok ((l', cd'), s1) =>
      match process_chains w V wk l' rest s1 with
      | Ok ((l'', rest'), s2) => Ok ((l'', (chain_id, cd') :: rest'), s2)
      | Raise e => Raise e
      end
  | Raise e => Raise e
  end.
Proof.
  simpl. unfold mbind, M_bind, bind.
  destruct (process_chain w V wk l chain_id cd s) as [[[l' cd'] s1]|e]; [| reflexivity].
  destruct (process_chains w V wk l' rest s1) as [[[l'' rest'] s2]|e]; reflexivity.
Qed.

Lemma process_chains_cons_inv w V wk l chain_id cd rest s l'' cds s2 :
  process_chains w V wk l ((chain_id, cd) :: rest) s = Ok ((l'', cds), s2) ->
  exists l' cd' s1 rest',
    process_chain w V wk l chain_id cd s = Ok ((l', cd'), s1)
    /\ process_chains w V wk l' rest s1 = Ok ((l'', rest'), s2)
    /\ cds = (chain_id, cd') :: rest'.
Proof.
  rewrite process_chains_cons.
  destruct (process_chain w V wk l chain_id cd s) as [[[l' cd'] s1]|e] eqn:E1;
    [| discriminate].
  destruct (process_chains w V wk l' rest s1) as [[[l3 rest'] s3]|e] eqn:E2;
    [| discriminate].
  intros [= <- <- <-]. exists l', cd', s1, rest'. auto.
Qed.


(** A turn writes at most the entry of its own chain. *)
Lemma process_chain_lookup_other w V wk l chain_id cd s l' cd' s' (j : Z) :
  process_chain w V wk l chain_id cd s = Ok ((l', cd'), s') ->
  j <> chain_id ->
  new_chain_limits l' !! j = new_chain_limits l !! j.
Proof.
  intros H Hj. apply process_chain_inv in H as (_ & _ & t1 & _ & [(_ & -> & _)|(_ & t2 & _ & -> & _)]).
  - reflexivity.
  - simpl. now rewrite lookup_insert_ne.
Qed.

Lemma process_chains_lookup_other w V wk chains (j : Z) :
  forall l s l' cds s',
  process_chains w V wk l chains s = Ok ((l', cds), s') ->
  j ∉ chains.*1 ->
  new_chain_limits l' !! j = new_chain_limits l !! j.
Proof.
  induction chains as [|[i d] rest IH]; intros l s l' cds s' H Hj.
  - simpl in H. injection H as <- _ _. reflexivity.
  - apply process_chains_cons_inv in H as (la & da & sa & ra & H1 & H2 & _).
    rewrite fmap_cons in Hj. simpl in Hj. apply not_elem_of_cons in Hj as [Hne Hj].
    rewrite (IH _ _ _ _ _ H2 Hj).
    eapply process_chain_lookup_other; eassumption.
Qed.


(** ** [main] *)

Lemma main_inv w chains out :
  run (main w chains) = Ok out ->
  exists V wk l cds k k',
    totalSupply w = Some V /\ weekly w = Some wk
    /\ process_chains w V wk init_locals chains 0%nat = Ok ((l, cds), k)
    /\ process_hub w l k = Ok (out, k').
Proof.
  unfold run. intros H.
  destruct (main w chains 0%nat) as [[o k']|e] eqn:E; [| discriminate].
  injection H as ->. unfold main in E.
  apply bind_Ok_inv in E as (V & s1 & HV & E). apply call_inv in HV as [HV ->].
  apply bind_Ok_inv in E as (wk & s1 & Hwk & E). apply call_inv in Hwk as [Hwk ->].
  apply bind_Ok_inv in E as ([l cds] & k & Hl & E).
  exists V, wk, l, cds, k, k'. auto.
Qed.

(** ** The hub *)

Lemma process_hub_skip w l s :
  Qgtb (op_buffer_delta l) 0 = false ->
  process_hub w l s = Ok (new_chain_limits l, s).
Proof. intros H. unfold process_hub. now rewrite H. Qed.

Lemma process_hub_eq w l s :
  Qgtb (op_buffer_delta l) 0 = true ->
  process_hub w l s =
  match bufferCap w, rateLimitPerSecond w, burningCurrentLimitOf w,
        latest_block_timestamp w Hub s with
  | Some op_buffer_cap, Some _, Some op_current_limit, Some timestamp =>
      if Qeq_bool BUFFER_MARGIN 0 then Raise ZeroDivisionError
      else Ok (<[OPTIMISM := hub_recommendation l op_buffer_cap op_current_limit timestamp]>
                 (new_chain_limits l), S s)
  | _, _, _, _ => Raise RpcError
  end.
Proof.
  intros H. unfold process_hub. rewrite H.
  destruct (bufferCap w) as [c|]; [| reflexivity].
  destruct (rateLimitPerSecond w) as [r|]; [| reflexivity].
  destruct (burningCurrentLimitOf w) as [b|]; [| reflexivity].
  change (call (Some c)) with (ret (A:=Z) c).
  change (call (Some r)) with (ret (A:=Z) r).
  change (call (Some b)) with (ret (A:=Z) b).
  do 3 (erewrite bind_Ok by reflexivity).
  destruct (latest_block_timestamp w Hub s) as [t|] eqn:Et.
  2:{ apply bind_Raise. unfold web3_latest_timestamp. now rewrite Et. }
  erewrite bind_Ok by (apply web3_latest_timestamp_Ok; eassumption).
  cbv zeta.
  destruct (Qeq_bool BUFFER_MARGIN 0) eqn:EB.
  { now erewrite bind_Raise by (now apply truediv_zero). }
  erewrite bind_Ok by (now apply truediv_Ok).
  erewrite bind_Ok by (apply contingency_check_Ok, contingency_window_pos).
  reflexivity.
Qed.

(** The hub's block writes at most the entry of chain id 10. *)
Lemma process_hub_lookup_other w l s out s' (j : Z) :
  process_hub w l s = Ok (out, s') -> j <> OPTIMISM ->
  out !! j = new_chain_limits l !! j.
Proof.
  intros H Hj. destruct (Qgtb (op_buffer_delta l) 0) eqn:E.
  - rewrite process_hub_eq in H by assumption.
    destruct (bufferCap w), (rateLimitPerSecond w), (burningCurrentLimitOf w),
      (latest_block_timestamp w Hub s); try discriminate.
    destruct (Qeq_bool BUFFER_MARGIN 0); [discriminate |].
    injection H as <- _. now rewrite lookup_insert_ne.
  - rewrite process_hub_skip in H by assumption. now injection H as <- _.
Qed.

(** ** The entry of a configured chain *)


(** ** The checks of one chain *)


(** Half of a chain's adjusted cap is its padded emissions. *)
Lemma half_cap_is_expected_emissions V wk cd :
  (chain_buffer_cap V wk cd / 2 == chain_expected_emissions V wk cd)%Q.
Proof.
  unfold chain_buffer_cap, chain_expected_emissions, adjusted_buffer_cap,
    padded_emissions, min_buffer_cap.
  field.
Qed.

Lemma chain_min_emissions_nonneg V wk cd :
  0 <= V -> 0 <= wk -> 0 <= total_voting_weight cd ->
  (0 <= chain_min_emissions V wk cd)%Q.
Proof.
  intros HV Hwk Hv. unfold chain_min_emissions, min_emissions, weights_percentage.
  apply Qmult_le_0_compat.
  - change 0%Q with (inject_Z 0). now rewrite <- Zle_Qle.
  - apply Qmult_le_0_compat.
    + change 0%Q with (inject_Z 0). now rewrite <- Zle_Qle.
    + apply Qinv_le_0_compat. change 0%Q with (inject_Z 0). now rewrite <- Zle_Qle.
Qed.



(** ** Claims on the chains' entries *)



(** ** Claims on the windows and the buffers *)

(** C4: on every timestamp the window of the contingency check is positive;
    on [timestamp = replenish_ts] it is the window to the epoch boundary,
    [epoch_next - timestamp], which is 600; so the division that yields
    [temporary_rps] does not raise. *)
Theorem contingency_window_never_zero (timestamp : Z) :
  0 < contingency_window timestamp
  /\ (timestamp = replenish_ts timestamp ->
      contingency_window timestamp = epoch_next timestamp - timestamp
      /\ contingency_window timestamp = 600)
  /\ (forall current_limit_ cap s,
        exists r, temporary_rps current_limit_ cap (contingency_window timestamp) s
                  = Ok (r, s)).
Proof.
  split; [apply contingency_window_pos |]. split.
  - intros H. destruct (contingency_window_at_replenish_ts timestamp H) as [H1 H2].
    split; [assumption | congruence].
  - intros cl cap s. eexists. apply temporary_rps_Ok, contingency_window_pos.
Qed.

(** C6: the projected usable buffer never exceeds its ceiling: the primary
    replenished buffer is at most [existing_midpoint], and the replenished
    buffer of the contingency check is at most [adjusted_buffer_cap / 2]. *)
Theorem replenished_buffer_bounded
    (cd : ChainData) (timestamp current_limit_ : Z) (cap rps : Q) (t : Z) :
  primary_replenished_buffer cd timestamp <= existing_midpoint cd
  /\ (contingency_replenished_buffer current_limit_ cap rps t <= cap / 2)%Q.
Proof.
  split.
  - unfold primary_replenished_buffer. apply Z.le_min_r.
  - unfold contingency_replenished_buffer. apply py_min_le_r.
Qed.

(** C10: half of a chain's adjusted buffer cap equals its padded expected
    emissions, so the contingency check passes if and only if the uncapped
    [expected_buffer = current_limit + adjusted_rps * time_to_next_epoch']
    is at least the expected emissions. *)
Theorem contingency_ceiling_is_expected_emissions (V wk : Z) (cd : ChainData) (t : Z) :
  (chain_buffer_cap V wk cd / 2 == chain_expected_emissions V wk cd)%Q
  /\ (Qgtb (chain_expected_emissions V wk cd)
           (contingency_replenished_buffer (current_limit cd)
              (chain_buffer_cap V wk cd) (chain_rps V wk cd) t) = false
      <-> (chain_expected_emissions V wk cd
           <= contingency_expected_buffer (current_limit cd) (chain_rps V wk cd) t)%Q).
Proof.
  pose proof (half_cap_is_expected_emissions V wk cd) as Hhalf.
  split; [assumption |].
  rewrite Qgtb_false. unfold contingency_replenished_buffer.
  split.
  - intros H. eapply Qle_trans; [exact H | apply py_min_le_l].
  - intros H. apply py_min_glb; [assumption |]. rewrite Hhalf. apply Qle_refl.
Qed.

(** ** The protocol-wide totals *)




Lemma main_eq w chains s :
  main w chains s =
  match totalSupply w, weekly w with
  | Some V, Some wk =>
      match process_chains w V wk init_locals chains s with
      | Ok ((l, _), k) => process_hub w l k
      | Raise e => Raise e
      end
  | _, _ => Raise RpcError
  end.
Proof.
  unfold main, mbind, M_bind, bind.
  destruct (totalSupply w) as [V|]; [| reflexivity]. simpl.
  destruct (weekly w) as [wk|]; [| reflexivity]. simpl.
  destruct (process_chains w V wk init_locals chains s) as [[[l cds] k]|e]; reflexivity.
Qed.

(** ** Claims on the hub *)



(** ** Claims on the failures and on the clock *)

(** C8, as the code has it: no guard precedes the share division.  With a
    total vote weight of zero, the division of the first chain's turn raises
    [ZeroDivisionError], before any timestamp is read and whatever the
    endpoints would answer; the run ends with this exception, which is not
    the one of a failed call. *)
Theorem zero_total_vote_weight_raises w chains :
  totalSupply w = Some 0 -> is_Some (weekly w) -> chains <> [] ->
  run (main w chains) = Raise ZeroDivisionError
  /\ ZeroDivisionError <> RpcError
  /\ (forall wk l chain_id cd s,
        truediv (inject_Z (total_voting_weight cd)) (inject_Z 0) s
        = Raise ZeroDivisionError
        /\ process_chain w 0 wk l chain_id cd s = Raise ZeroDivisionError).
Proof.
  intros HV [wk Hwk] Hne.
  assert (Hturn : forall wk l chain_id cd s,
             process_chain w 0 wk l chain_id cd s = Raise ZeroDivisionError).
  { intros. now rewrite process_chain_eq. }
  split; [| split; [discriminate | split; [reflexivity | apply Hturn]]].
  unfold run. rewrite main_eq, HV, Hwk.
  destruct chains as [|[i d] rest]; [congruence |].
  now rewrite process_chains_cons, Hturn.
Qed.





(** ** Runs that return *)

Lemma process_chains_returns w V wk chains :
  V <> 0 ->
  (forall k, is_Some (latest_block_timestamp w Hub k)) ->
  forall l s, exists l' cds s', process_chains w V wk l chains s = Ok ((l', cds), s').
Proof.
  intros HV Hclock.
  induction chains as [|[i d] rest IH]; intros l s.
  - exists l, [], s. reflexivity.
  - rewrite process_chains_cons, process_chain_eq, inject_Z_nonzero by assumption.
    destruct (Hclock s) as [t1 ->].
    destruct (primary_insufficient _ t1).
    + destruct (Hclock (S s)) as [t2 ->].
      destruct (IH (locals_after V wk l i d (Some (chain_recommendation V wk d t2)))
                   (S (S s))) as (l' & cds & s' & ->).
      eauto.
    + destruct (IH (locals_after V wk l i d None) (S s)) as (l' & cds & s' & ->).
      eauto.
Qed.

(** When every endpoint answers, the total vote weight is not zero and
    [BUFFER_MARGIN] is not zero, [main] returns: no division raises. *)
Lemma main_returns w chains V :
  totalSupply w = Some V -> V <> 0 -> is_Some (weekly w) ->
  (forall k, is_Some (latest_block_timestamp w Hub k)) ->
  is_Some (bufferCap w) -> is_Some (rateLimitPerSecond w) ->
  is_Some (burningCurrentLimitOf w) ->
  Qeq_bool BUFFER_MARGIN 0 = false ->
  exists out, run (main w chains) = Ok out.
Proof.
  intros HV HVnz [wk Hwk] Hclock [c Hc] [r Hr] [b Hb] HB.
  unfold run. rewrite main_eq, HV, Hwk.
  destruct (process_chains_returns w V wk chains HVnz Hclock init_locals 0%nat)
    as (l & cds & k & ->).
  destruct (Qgtb (op_buffer_delta l) 0) eqn:E.
  - rewrite process_hub_eq, Hc, Hr, Hb, HB by assumption.
    destruct (Hclock k) as [t ->]. eauto.
  - rewrite process_hub_skip by assumption. eauto.
Qed.

(** ** More on the windows *)

(** X1: [epoch_next] is the first multiple of [WEEK] strictly after the
    timestamp; on an epoch boundary it is a full week ahead. *)
Theorem epoch_next_is_next_boundary (timestamp : Z) :
  epoch_next timestamp mod WEEK = 0
  /\ timestamp < epoch_next timestamp <= timestamp + WEEK
  /\ (forall boundary,
        boundary mod WEEK = 0 -> timestamp < boundary ->
        epoch_next timestamp <= boundary)
  /\ (timestamp mod WEEK = 0 -> epoch_next timestamp = timestamp + WEEK).
Proof.
  unfold epoch_next, WEEK. repeat split.
  - Z.div_mod_to_equations. lia.
  - Z.div_mod_to_equations. lia.
  - Z.div_mod_to_equations. lia.
  - intros boundary Hb Hlt. Z.div_mod_to_equations. lia.
  - intros H. lia.
Qed.

(** X2: the window of the contingency check is the primary window less ten
    minutes while more than ten minutes remain, and the primary window
    itself in the last ten minutes; it lies between 1 and [WEEK - 600]. *)
Theorem contingency_window_shape (timestamp : Z) :
  (600 < primary_window timestamp ->
   contingency_window timestamp = primary_window timestamp - 600)
  /\ (primary_window timestamp <= 600 ->
      contingency_window timestamp = primary_window timestamp)
  /\ 1 <= contingency_window timestamp <= WEEK - 600
  /\ contingency_window timestamp <= primary_window timestamp.
Proof.
  pose proof (primary_window_bounds timestamp) as Hb.
  unfold contingency_window, replenish_ts, primary_window in *.
  unfold WEEK in *.
  destruct (Z.ltb_spec timestamp (epoch_next timestamp - 60 * 10)); lia.
Qed.

(** ** More on the returned mapping *)

Lemma main_lookup_outside w chains out (j : Z) :
  run (main w chains) = Ok out ->
  j ∉ chains.*1 -> j <> OPTIMISM ->
  out !! j = None.
Proof.
  intros Hrun Hnin Hne.
  apply main_inv in Hrun as (V & wk & l & cds & k & k' & _ & _ & Hloop & Hhub).
  rewrite (process_hub_lookup_other _ _ _ _ _ _ Hhub Hne).
  rewrite (process_chains_lookup_other _ _ _ _ _ _ _ _ _ _ Hloop Hnin).
  apply lookup_empty.
Qed.

(** X3: the returned mapping has no key besides the ids of the dict and the
    hub's id 10. *)
Theorem main_keys w chains out (j : Z) :
  run (main w chains) = Ok out ->
  is_Some (out !! j) ->
  (j ∈ chains.*1) \/ j = OPTIMISM.
Proof.
  intros Hrun Hj.
  destruct (decide (j = OPTIMISM)) as [|Hne]; [now right |]. left.
  destruct (decide (j ∈ chains.*1)) as [|Hnin]; [assumption |]. exfalso.
  rewrite (main_lookup_outside w chains out j Hrun Hnin Hne) in Hj.
  now destruct Hj.
Qed.


Lemma process_chains_reads w V wk chains :
  NoDup (chains.*1) ->
  forall l s l' cds s',
  (forall j, j ∈ chains.*1 -> new_chain_limits l !! j = None) ->
  process_chains w V wk l chains s = Ok ((l', cds), s') ->
  (s' + size (new_chain_limits l) = s + length chains + size (new_chain_limits l'))%nat.
Proof.
  induction chains as [|[i d] rest IH]; intros Hnd l s l' cds s' Hfresh H.
  - simpl in H. injection H as <- _ <-. simpl. lia.
  - apply process_chains_cons_inv in H as (la & da & sa & ra & H1 & H2 & _).
    rewrite fmap_cons in Hnd, Hfresh. simpl in Hnd, Hfresh.
    apply NoDup_cons in Hnd as [Hi Hnd].
    assert (Hli : new_chain_limits l !! i = None) by (apply Hfresh; left).
    apply process_chain_inv in H1
      as (_ & _ & t1 & _ & [(_ & -> & ->)|(_ & t2 & _ & -> & ->)]).
    + assert (Hfresh' : forall j, j ∈ rest.*1 ->
                new_chain_limits (locals_after V wk l i d None) !! j = None).
      { intros j Hj. simpl. apply Hfresh. now right. }
      specialize (IH Hnd _ _ _ _ _ Hfresh' H2).
      simpl in IH |- *. lia.
    + assert (Hfresh' : forall j, j ∈ rest.*1 ->
                new_chain_limits
                  (locals_after V wk l i d (Some (chain_recommendation V wk d t2))) !! j
                = None).
      { intros j Hj. simpl. rewrite lookup_insert_ne by (intros ->; contradiction).
        apply Hfresh. now right. }
      specialize (IH Hnd _ _ _ _ _ Hfresh' H2).
      simpl in IH |- *. rewrite map_size_insert_None in IH by assumption. lia.
Qed.

(** X5: a run asks the hub for the latest block once per chain, once more
    per entry of a chain, and once more for the hub's entry: as many times as
    there are chains and entries in the returned mapping. *)
Theorem main_timestamp_reads w chains out reads :
  NoDup (chains.*1) -> OPTIMISM ∉ chains.*1 ->
  main w chains 0%nat = Ok (out, reads) ->
  reads = (length chains + size out)%nat.
Proof.
  intros Hnd Hopt H. rewrite main_eq in H.
  destruct (totalSupply w) as [V|]; [| discriminate].
  destruct (weekly w) as [wk|]; [| discriminate].
  destruct (process_chains w V wk init_locals chains 0%nat)
    as [[[l cds] k]|e] eqn:Hloop; [| discriminate].
  pose proof (process_chains_reads w V wk chains Hnd _ _ _ _ _
                (fun j _ => lookup_empty j) Hloop) as Hk.
  simpl in Hk. rewrite map_size_empty in Hk.
  destruct (Qgtb (op_buffer_delta l) 0) eqn:E.
  - rewrite process_hub_eq in H by assumption.
    destruct (bufferCap w), (rateLimitPerSecond w), (burningCurrentLimitOf w),
      (latest_block_timestamp w Hub k); try discriminate.
    destruct (Qeq_bool BUFFER_MARGIN 0); [discriminate |].
    injection H as <- <-.
    rewrite map_size_insert_None.
    + lia.
    + rewrite (process_chains_lookup_other _ _ _ _ _ _ _ _ _ _ Hloop Hopt).
      apply lookup_empty.
  - rewrite process_hub_skip in H by assumption. injection H as <- <-. lia.
Qed.

(** ** More on the failures *)

Lemma Qeq_bool_inject_Z_zero (z : Z) : Qeq_bool (inject_Z z) 0 = true -> z = 0.
Proof. rewrite Qeq_bool_iff. unfold Qeq. simpl. lia. Qed.

Lemma process_chains_ZeroDivisionError w V wk chains :
  forall l s,
  process_chains w V wk l chains s = Raise ZeroDivisionError ->
  V = 0 /\ chains <> [].
Proof.
  induction chains as [|[i d] rest IH]; intros l s H; [discriminate |].
  rewrite process_chains_cons, process_chain_eq in H.
  destruct (Qeq_bool (inject_Z V) 0) eqn:EV.
  { split; [now apply Qeq_bool_inject_Z_zero | discriminate]. }
  destruct (latest_block_timestamp w Hub s) as [t1|]; [| discriminate].
  destruct (primary_insufficient _ t1).
  - destruct (latest_block_timestamp w Hub (S s)) as [t2|]; [| discriminate].
    destruct (process_chains w V wk _ rest (S (S s))) as [[[l' r'] s']|e] eqn:E;
      [discriminate |].
    injection H as ->. split; [| discriminate]. now apply IH in E.
  - destruct (process_chains w V wk _ rest (S s)) as [[[l' r'] s']|e] eqn:E;
      [discriminate |].
    injection H as ->. split; [| discriminate]. now apply IH in E.
Qed.

(** X6: a run ends with [ZeroDivisionError] only on a total vote weight of
    zero (the share division) or on a [BUFFER_MARGIN] of zero (the hub's
    [adjusted_buffer_cap / BUFFER_MARGIN]); no window and no other divisor
    can raise it. *)
Theorem main_ZeroDivisionError_only w chains :
  run (main w chains) = Raise ZeroDivisionError ->
  (totalSupply w = Some 0 /\ chains <> []) \/ (BUFFER_MARGIN == 0)%Q.
Proof.
  unfold run. rewrite main_eq. intros H.
  destruct (totalSupply w) as [V|]; [| discriminate].
  destruct (weekly w) as [wk|]; [| discriminate].
  destruct (process_chains w V wk init_locals chains 0%nat)
    as [[[l cds] k]|e] eqn:Hloop.
  - right. destruct (Qgtb (op_buffer_delta l) 0) eqn:E.
    + rewrite process_hub_eq in H by assumption.
      destruct (bufferCap w), (rateLimitPerSecond w), (burningCurrentLimitOf w),
        (latest_block_timestamp w Hub k); try discriminate.
      destruct (Qeq_bool BUFFER_MARGIN 0) eqn:EB; [| discriminate].
      now apply Qeq_bool_iff.
    + rewrite process_hub_skip in H by assumption. discriminate.
  - left. injection H as ->.
    apply process_chains_ZeroDivisionError in Hloop as [-> Hne]. auto.
Qed.

(** ** More on the totals *)

Lemma sum_Z_cons (x : Z) (l : list Z) : sum_Z (x :: l) = x + sum_Z l.
Proof. reflexivity. Qed.

Lemma sum_Z_app (l1 l2 : list Z) : sum_Z (l1 ++ l2) = sum_Z l1 + sum_Z l2.
Proof.
  induction l1 as [|x l1 IH]; [reflexivity |].
  change ((x :: l1) ++ l2) with (x :: (l1 ++ l2)).
  rewrite !sum_Z_cons, IH. lia.
Qed.



(** ** The report's branch and the hub's cap *)



(** ** [fetch_pools] *)

Lemma with_pools_id (cd : ChainData) : with_pools cd (pools cd) = cd.
Proof. now destruct cd. Qed.

Lemma append_pool_KeyError chainid pool chains :
  chainid ∉ chains.*1 -> append_pool chainid pool chains = Failed (KeyError chainid).
Proof.
  induction chains as [|[i d] rest IH]; intros Hnin; [reflexivity |].
  rewrite fmap_cons in Hnin. simpl in Hnin. apply not_elem_of_cons in Hnin as [Hne Hnin].
  simpl. destruct (decide (i = chainid)) as [->|_]; [contradiction |].
  now rewrite IH.
Qed.

Lemma append_pool_inv (c : Contracts) chainid pool chains chains' :
  append_pool chainid pool chains = Done chains' ->
  chainid ∈ chains.*1
  /\ chains'.*1 = chains.*1
  /\ votes_of_chains chains' = votes_of_chains chains
  /\ pool_weights_of_chains c chains'
     = pool_weights_of_chains c chains + weight_of c (address pool).
Proof.
  revert chains'. induction chains as [|[i d] rest IH]; intros chains' H; [discriminate |].
  simpl in H. destruct (decide (i = chainid)) as [->|Hne].
  - injection H as <-. repeat split.
    + rewrite fmap_cons. left.
    + unfold pool_weights_of_chains, total_weight. rewrite !fmap_cons, !sum_Z_cons.
      simpl. rewrite !fmap_app, sum_Z_app. simpl. lia.
  - destruct (append_pool chainid pool rest) as [rest'|e]; [| discriminate].
    injection H as <-. destruct (IH rest' eq_refl) as (Hin & Hk & Hv & Hw).
    repeat split.
    + rewrite fmap_cons. now right.
    + rewrite !fmap_cons. now f_equal.
    + unfold votes_of_chains in *. rewrite !fmap_cons, !sum_Z_cons. lia.
    + unfold pool_weights_of_chains in *. rewrite !fmap_cons, !sum_Z_cons. lia.
Qed.

Lemma append_pool_map chainid pool chains chains' :
  NoDup (chains.*1) ->
  append_pool chainid pool chains = Done chains' ->
  chains' = (fun kv => (kv.1, if decide (kv.1 = chainid)
                              then with_pools kv.2 (pools kv.2 ++ [pool])
                              else kv.2)) <$> chains.
Proof.
  revert chains'. induction chains as [|[i d] rest IH]; intros chains' Hnd H; [discriminate |].
  rewrite fmap_cons in Hnd. simpl in Hnd. apply NoDup_cons in Hnd as [Hi Hnd].
  simpl in H. rewrite fmap_cons. simpl.
  destruct (decide (i = chainid)) as [->|Hne].
  - injection H as <-. f_equal.
    transitivity (id <$> rest); [now rewrite list_fmap_id |].
    apply list_fmap_ext. intros n [j e] Hl. simpl.
    destruct (decide (j = chainid)) as [->|]; [| reflexivity].
    exfalso. apply Hi. apply list_elem_of_fmap. exists (chainid, e).
    split; [reflexivity |]. eapply list_elem_of_lookup_2. exact Hl.
  - destruct (append_pool chainid pool rest) as [rest'|e]; [| discriminate].
    injection H as <-. f_equal. now apply IH.
Qed.

Lemma organize_pools_groups c root_pools :
  forall chains chains',
  NoDup (chains.*1) ->
  organize_pools c root_pools chains = Done chains' ->
  chains' = (fun kv => (kv.1, with_pools kv.2
                                (pools kv.2 ++ (new_pool <$> pools_on c kv.1 root_pools))))
            <$> chains
  /\ Forall (fun pool => exists chainid,
               pool_chainid c pool = Some chainid /\ chainid ∈ chains.*1) root_pools.
Proof.
  induction root_pools as [|pool rest IH]; intros chains chains' Hnd H.
  - simpl in H. injection H as <-. split; [| constructor].
    transitivity (id <$> chains); [now rewrite list_fmap_id |].
    apply list_fmap_ext. intros n [j e] _. simpl.
    now rewrite app_nil_r, with_pools_id.
  - simpl in H. destruct (pool_chainid c pool) as [k|] eqn:Ek; [| discriminate].
    simpl in H.
    destruct (append_pool k (new_pool pool) chains) as [chains1|e] eqn:Ea; [| discriminate].
    simpl in H.
    destruct (append_pool_inv c _ _ _ _ Ea) as (Hin & Hkeys & _ & _).
    pose proof (append_pool_map _ _ _ _ Hnd Ea) as Hmap.
    rewrite <- Hkeys in Hnd.
    destruct (IH _ _ Hnd H) as [Hall Hforall]. rewrite Hkeys in Hforall.
    split.
    + rewrite Hall, Hmap, <- list_fmap_compose.
      apply list_fmap_ext. intros n [j e] _. simpl. unfold pools_on.
      destruct (decide (j = k)) as [->|Hne]; simpl.
      * rewrite filter_cons_True by assumption.
        rewrite fmap_cons, <- app_assoc. reflexivity.
      * rewrite filter_cons_False by congruence. reflexivity.
    + constructor; [eauto | assumption].
Qed.

(** X11: [fetch_pools] groups the pools of both factories by the chain id
    each pool reports: every chain's [pools] grows by the pools that report
    its id, in the factories' order and with repetitions, and nothing else
    in the dict changes; every pool reports a key of the dict. *)
Theorem fetch_pools_groups c chains chains' :
  NoDup (chains.*1) ->
  fetch_pools c chains = Done chains' ->
  exists root_pools cl_root_pools,
    root_allPools c = Some root_pools
    /\ cl_root_allPools c = Some cl_root_pools
    /\ chains' = (fun kv => (kv.1, with_pools kv.2
                    (pools kv.2
                     ++ (new_pool <$> pools_on c kv.1 (root_pools ++ cl_root_pools)))))
                 <$> chains
    /\ Forall (fun pool => exists chainid,
                 pool_chainid c pool = Some chainid /\ chainid ∈ chains.*1)
              (root_pools ++ cl_root_pools).
Proof.
  intros Hnd H. unfold fetch_pools in H.
  destruct (root_allPools c) as [root|]; [| discriminate].
  destruct (cl_root_allPools c) as [cl|]; [| discriminate].
  simpl in H. exists root, cl. split; [reflexivity |]. split; [reflexivity |].
  now apply organize_pools_groups.
Qed.

Lemma organize_pools_KeyError c pre pool post key :
  forall chains,
  Forall (fun p => exists chainid,
            pool_chainid c p = Some chainid /\ chainid ∈ chains.*1) pre ->
  pool_chainid c pool = Some key -> key ∉ chains.*1 ->
  organize_pools c (pre ++ pool :: post) chains = Failed (KeyError key).
Proof.
  induction pre as [|p pre IH]; intros chains Hpre Hk Hnin.
  - simpl. rewrite Hk. simpl. now rewrite append_pool_KeyError.
  - apply Forall_cons in Hpre as [(k & Hpk & Hin) Hpre].
    change ((p :: pre) ++ pool :: post) with (p :: (pre ++ pool :: post)).
    simpl. rewrite Hpk. simpl.
    destruct (append_pool k (new_pool p) chains) as [chains1|e] eqn:Ea.
    + simpl. destruct (append_pool_inv c _ _ _ _ Ea) as (_ & Hkeys & _ & _).
      apply IH; rewrite ?Hkeys; assumption.
    + exfalso. clear -Ea Hin.
      induction chains as [|[i d] rest IHc]; [now apply elem_of_nil in Hin |].
      simpl in Ea. destruct (decide (i = k)); [discriminate |].
      rewrite fmap_cons in Hin. simpl in Hin.
      apply elem_of_cons in Hin as [->|Hin]; [contradiction |].
      destruct (append_pool k (new_pool p) rest); [discriminate |]. now apply IHc.
Qed.

(** X12: a pool that reports a chain id which is not a key of the dict makes
    [fetch_pools] raise [KeyError] on that id (the pools before it having
    reported keys of the dict): the pool is not dropped. *)
Theorem fetch_pools_KeyError c chains root_pools cl_root_pools pre pool post key :
  root_allPools c = Some root_pools ->
  cl_root_allPools c = Some cl_root_pools ->
  root_pools ++ cl_root_pools = pre ++ pool :: post ->
  Forall (fun p => exists chainid,
            pool_chainid c p = Some chainid /\ chainid ∈ chains.*1) pre ->
  pool_chainid c pool = Some key -> key ∉ chains.*1 ->
  fetch_pools c chains = Failed (KeyError key).
Proof.
  intros Hr Hc Heq Hpre Hk Hnin. unfold fetch_pools. rewrite Hr, Hc. simpl.
  rewrite Heq. now apply organize_pools_KeyError.
Qed.

(** ** [fetch_voting_weights] *)

Lemma weigh_pools_inv c pools_ :
  forall total pools' total',
  weigh_pools c pools_ total = Done (pools', total') ->
  pools' = weighed c <$> pools_
  /\ total' = total + total_weight c (address <$> pools_)
  /\ Forall (fun pool => is_Some (voter_weights c (address pool))) pools_.
Proof.
  induction pools_ as [|p rest IH]; intros total pools' total' H.
  - simpl in H. injection H as <- <-. unfold total_weight. simpl.
    repeat split; [lia | constructor].
  - simpl in H. destruct (voter_weights c (address p)) as [v|] eqn:Ev; [| discriminate].
    simpl in H.
    destruct (weigh_pools c rest (total + v)) as [[rest' t']|e] eqn:Er; [| discriminate].
    simpl in H. injection H as <- <-.
    destruct (IH _ _ _ Er) as (-> & -> & Hall).
    unfold total_weight, weighed, weight_of. rewrite !fmap_cons, sum_Z_cons, Ev. simpl.
    repeat split; [lia |]. constructor; [rewrite Ev; eauto | assumption].
Qed.

Lemma weigh_chains_inv c chains :
  forall superchain_votes chains' superchain_votes',
  weigh_chains c chains superchain_votes = Done (chains', superchain_votes') ->
  chains' = (fun kv => (kv.1, with_votes kv.2 (weighed c <$> pools kv.2)
                                (total_voting_weight kv.2
                                 + total_weight c (address <$> pools kv.2))))
            <$> chains
  /\ superchain_votes' = superchain_votes + votes_of_chains chains'
  /\ Forall (fun kv => Forall (fun pool => is_Some (voter_weights c (address pool)))
                         (pools kv.2)) chains.
Proof.
  induction chains as [|[i d] rest IH]; intros sv chains' sv' H.
  - simpl in H. injection H as <- <-. unfold votes_of_chains. simpl.
    repeat split; [lia | constructor].
  - simpl in H.
    destruct (weigh_pools c (pools d) (total_voting_weight d)) as [[ps t]|e] eqn:Ep;
      [| discriminate].
    simpl in H.
    destruct (weigh_chains c rest (sv + t)) as [[rest' sv1]|e] eqn:Er; [| discriminate].
    simpl in H. injection H as <- <-.
    destruct (weigh_pools_inv _ _ _ _ _ Ep) as (-> & -> & Hps).
    destruct (IH _ _ _ Er) as (-> & -> & Hall).
    split; [reflexivity |]. split.
    + unfold votes_of_chains. rewrite !fmap_cons, sum_Z_cons. simpl. lia.
    + constructor; assumption.
Qed.

Lemma votes_after_weighing c chains :
  votes_of_chains
    ((fun kv => (kv.1, with_votes kv.2 (weighed c <$> pools kv.2)
                         (total_voting_weight kv.2
                          + total_weight c (address <$> pools kv.2))))
     <$> chains)
  = votes_of_chains chains + pool_weights_of_chains c chains.
Proof.
  unfold votes_of_chains, pool_weights_of_chains.
  induction chains as [|[i d] rest IH]; [reflexivity |].
  rewrite !fmap_cons, !sum_Z_cons. simpl. lia.
Qed.

(** X13: [fetch_voting_weights] gives every pool the voter's weight of its
    address, adds the weights of a chain's pools to the [total_voting_weight]
    the chain has already, and returns the sum of the chains' new totals;
    nothing else in the dict changes. *)
Theorem fetch_voting_weights_totals c chains chains' superchain_votes :
  fetch_voting_weights c chains = Done (chains', superchain_votes) ->
  chains' = (fun kv => (kv.1, with_votes kv.2 (weighed c <$> pools kv.2)
                                (total_voting_weight kv.2
                                 + total_weight c (address <$> pools kv.2))))
            <$> chains
  /\ Forall (fun kv => Forall (fun pool => is_Some (voter_weights c (address pool)))
                         (pools kv.2)) chains
  /\ superchain_votes = votes_of_chains chains'
  /\ superchain_votes = votes_of_chains chains + pool_weights_of_chains c chains.
Proof.
  intros H. apply weigh_chains_inv in H as (Hmap & Hsv & Hall).
  split; [assumption |]. split; [assumption |]. split; [lia |].
  rewrite Hsv, Hmap, votes_after_weighing. lia.
Qed.

(** ** The fetches together *)

Lemma organize_pools_weights c root_pools :
  forall chains chains',
  organize_pools c root_pools chains = Done chains' ->
  votes_of_chains chains' = votes_of_chains chains
  /\ pool_weights_of_chains c chains'
     = pool_weights_of_chains c chains + total_weight c root_pools.
Proof.
  induction root_pools as [|pool rest IH]; intros chains chains' H.
  - simpl in H. injection H as <-. unfold total_weight. simpl. lia.
  - simpl in H. destruct (pool_chainid c pool) as [k|]; [| discriminate]. simpl in H.
    destruct (append_pool k (new_pool pool) chains) as [chains1|e] eqn:Ea; [| discriminate].
    simpl in H.
    destruct (append_pool_inv c _ _ _ _ Ea) as (_ & _ & Hv & Hw).
    destruct (IH _ _ H) as [Hv' Hw']. simpl in Hw.
    unfold total_weight in *. rewrite fmap_cons, sum_Z_cons. lia.
Qed.

(** X14: after [fetch_pools] and [fetch_voting_weights] the returned
    [superchain_votes] is what the chains held before plus the voter's
    weights of all the pools of the first factory and of the second one; a
    pool listed by both factories is counted twice.  On a dict whose chains
    have no pool and no weight yet it is the two factories' sum. *)
Theorem superchain_votes_counts_every_listing c chains chains1 chains2 superchain_votes :
  fetch_pools c chains = Done chains1 ->
  fetch_voting_weights c chains1 = Done (chains2, superchain_votes) ->
  exists root_pools cl_root_pools,
    root_allPools c = Some root_pools
    /\ cl_root_allPools c = Some cl_root_pools
    /\ superchain_votes
       = votes_of_chains chains + pool_weights_of_chains c chains
         + total_weight c root_pools + total_weight c cl_root_pools
    /\ (Forall (fun kv => pools kv.2 = [] /\ total_voting_weight kv.2 = 0) chains ->
        superchain_votes = total_weight c root_pools + total_weight c cl_root_pools).
Proof.
  intros H1 H2. unfold fetch_pools in H1.
  destruct (root_allPools c) as [root|]; [| discriminate].
  destruct (cl_root_allPools c) as [cl|]; [| discriminate].
  simpl in H1. exists root, cl. split; [reflexivity |]. split; [reflexivity |].
  apply organize_pools_weights in H1 as [Hv Hw].
  apply weigh_chains_inv in H2 as (Hmap & Hsv0 & _).
  rewrite Hmap, votes_after_weighing in Hsv0.
  assert (Hsv : superchain_votes
                = votes_of_chains chains + pool_weights_of_chains c chains
                  + total_weight c root + total_weight c cl).
  { rewrite Hsv0, Hv, Hw. unfold total_weight. rewrite fmap_app, sum_Z_app. lia. }
  split; [assumption |].
  intros Hfresh. rewrite Hsv.
  assert (votes_of_chains chains = 0 /\ pool_weights_of_chains c chains = 0) as [-> ->];
    [| lia].
  clear -Hfresh. unfold votes_of_chains, pool_weights_of_chains.
  induction Hfresh as [|[i d] rest [Hp Ht] _ [IH1 IH2]]; [split; reflexivity |].
  rewrite !fmap_cons, !sum_Z_cons. simpl in *. rewrite Hp, Ht, IH1, IH2.
  split; reflexivity.
Qed.

(** ** [fetch_existing_buffers] *)

(** X15: [fetch_existing_buffers] overwrites the four buffer fields of every
    chain with what the chain's own XERC20 answers, the midpoint being the
    last component of [rateLimits]; the ids, their order, the names, the
    pools, the vote weights and the expected emissions stay as they are. *)
Theorem fetch_existing_buffers_fields c chains :
  forall chains',
  fetch_existing_buffers c chains = Done chains' ->
  Forall2 (fun kv kv' =>
             kv'.1 = kv.1
             /\ xerc20_bufferCap c kv.1 = Some (existing_buffer_cap kv'.2)
             /\ xerc20_rateLimitPerSecond c kv.1 = Some (existing_rate_limit kv'.2)
             /\ xerc20_mintingCurrentLimitOf c kv.1 = Some (current_limit kv'.2)
             /\ (exists limit_data,
                   xerc20_rateLimits c kv.1 = Some limit_data
                   /\ last limit_data = Some (existing_midpoint kv'.2))
             /\ name kv'.2 = name kv.2
             /\ pools kv'.2 = pools kv.2
             /\ total_voting_weight kv'.2 = total_voting_weight kv.2
             /\ expected_emissions kv'.2 = expected_emissions kv.2)
          chains chains'.
Proof.
  induction chains as [|[i d] rest IH]; intros chains' H.
  - simpl in H. injection H as <-. constructor.
  - simpl in H.
    destruct (xerc20_bufferCap c i) as [cap|] eqn:E1; [| discriminate]. simpl in H.
    destruct (xerc20_rateLimitPerSecond c i) as [rate|] eqn:E2; [| discriminate].
    simpl in H.
    destruct (xerc20_mintingCurrentLimitOf c i) as [lim|] eqn:E3; [| discriminate].
    simpl in H.
    destruct (xerc20_rateLimits c i) as [ld|] eqn:E4; [| discriminate]. simpl in H.
    unfold last_item in H. destruct (last ld) as [mid|] eqn:E5; [| discriminate].
    simpl in H.
    destruct (fetch_existing_buffers c rest) as [rest'|e] eqn:Er; [| discriminate].
    simpl in H. injection H as <-.
    constructor; [| now apply IH].
    simpl. repeat split; try assumption. exists ld. auto.
Qed.

(** X16: an empty [rateLimits] tuple makes [fetch_existing_buffers] raise
    [IndexError] at [limit_data[-1]], once the chains before it are done and
    the chain's three other reads have answered. *)
Theorem fetch_existing_buffers_IndexError c pre chain_id cd post :
  forall pre',
  fetch_existing_buffers c pre = Done pre' ->
  is_Some (xerc20_bufferCap c chain_id) ->
  is_Some (xerc20_rateLimitPerSecond c chain_id) ->
  is_Some (xerc20_mintingCurrentLimitOf c chain_id) ->
  xerc20_rateLimits c chain_id = Some [] ->
  fetch_existing_buffers c (pre ++ (chain_id, cd) :: post) = Failed IndexError.
Proof.
  induction pre as [|[i d] pre IH]; intros pre' Hpre [cap Hcap] [rate Hrate] [lim Hlim] Hld.
  - simpl. now rewrite Hcap, Hrate, Hlim, Hld.
  - change (((i, d) :: pre) ++ (chain_id, cd) :: post)
      with ((i, d) :: (pre ++ (chain_id, cd) :: post)).
    simpl in Hpre |- *.
    destruct (xerc20_bufferCap c i); [| discriminate]. simpl in Hpre |- *.
    destruct (xerc20_rateLimitPerSecond c i); [| discriminate]. simpl in Hpre |- *.
    destruct (xerc20_mintingCurrentLimitOf c i); [| discriminate]. simpl in Hpre |- *.
    destruct (xerc20_rateLimits c i) as [ld|]; [| discriminate]. simpl in Hpre |- *.
    destruct (last_item ld); [| discriminate]. simpl in Hpre |- *.
    destruct (fetch_existing_buffers c pre) as [p'|e] eqn:Ep; [| discriminate].
    now rewrite (IH p' eq_refl) by eauto.
Qed.

Lemma fetch_existing_buffers_keeps_votes c chains :
  forall chains',
  fetch_existing_buffers c chains = Done chains' ->
  Forall2 (fun kv kv' =>
             kv'.1 = kv.1 /\ name kv'.2 = name kv.2 /\ pools kv'.2 = pools kv.2
             /\ total_voting_weight kv'.2 = total_voting_weight kv.2)
          chains chains'.
Proof.
  induction chains as [|[i d] rest IH]; intros chains' H.
  - simpl in H. injection H as <-. constructor.
  - simpl in H.
    destruct (xerc20_bufferCap c i); [| discriminate]. simpl in H.
    destruct (xerc20_rateLimitPerSecond c i); [| discriminate]. simpl in H.
    destruct (xerc20_mintingCurrentLimitOf c i); [| discriminate]. simpl in H.
    destruct (xerc20_rateLimits c i) as [ld|]; [| discriminate]. simpl in H.
    destruct (last_item ld); [| discriminate]. simpl in H.
    destruct (fetch_existing_buffers c rest) as [rest'|e] eqn:Er; [| discriminate].
    simpl in H. injection H as <-.
    constructor; [simpl; auto | now apply IH].
Qed.

(** X17: on a dict whose chains have no pool and no weight yet, the three
    fetches hand the projector, for every chain and in the dict's order, the
    pools that report the chain's id and, as [total_voting_weight], the sum
    of the voter's weights of these pools. *)
Theorem fetched_vote_weights c chains chains1 chains2 superchain_votes chains3 :
  NoDup (chains.*1) ->
  Forall (fun kv => pools kv.2 = [] /\ total_voting_weight kv.2 = 0) chains ->
  fetch_pools c chains = Done chains1 ->
  fetch_voting_weights c chains1 = Done (chains2, superchain_votes) ->
  fetch_existing_buffers c chains2 = Done chains3 ->
  exists root_pools cl_root_pools,
    root_allPools c = Some root_pools
    /\ cl_root_allPools c = Some cl_root_pools
    /\ Forall2 (fun kv kv' =>
                  kv'.1 = kv.1 /\ name kv'.2 = name kv.2
                  /\ address <$> pools kv'.2
                     = pools_on c kv.1 (root_pools ++ cl_root_pools)
                  /\ total_voting_weight kv'.2
                     = total_weight c (pools_on c kv.1 (root_pools ++ cl_root_pools)))
               chains chains3.
Proof.
  intros Hnd Hfresh H1 H2 H3. unfold fetch_pools in H1.
  destruct (root_allPools c) as [root|]; [| discriminate].
  destruct (cl_root_allPools c) as [cl|]; [| discriminate].
  simpl in H1. exists root, cl. split; [reflexivity |]. split; [reflexivity |].
  apply organize_pools_groups in H1 as [-> _]; [| assumption].
  apply weigh_chains_inv in H2 as (-> & _ & _).
  apply fetch_existing_buffers_keeps_votes in H3.
  rewrite <- list_fmap_compose in H3. clear Hnd. revert chains3 H3.
  induction Hfresh as [|[i d] rest [Hpools Htvw] _ IH]; intros chains3 H3.
  - apply Forall2_nil_inv_l in H3 as ->. constructor.
  - rewrite fmap_cons in H3.
    apply Forall2_cons_inv_l in H3
      as ([i' d'] & rest3 & (Hi & Hn & Hp & Ht) & Hrest & ->).
    constructor; [| now apply IH]. simpl in *.
    assert (Haddr : address <$> (new_pool <$> pools_on c i (root ++ cl))
                    = pools_on c i (root ++ cl)).
    { rewrite <- list_fmap_compose. apply list_fmap_id. }
    rewrite Hpools in Hp, Ht. simpl in Hp, Ht.
    split; [assumption |]. split; [assumption |]. split.
    + rewrite Hp, <- list_fmap_compose. exact Haddr.
    + rewrite Ht, Htvw, Haddr. lia.
Qed.

(** ** [main] from its first line *)

Lemma organize_pools_keys c root_pools :
  forall chains chains',
  organize_pools c root_pools chains = Done chains' -> chains'.*1 = chains.*1.
Proof.
  induction root_pools as [|pool rest IH]; intros chains chains' H.
  - simpl in H. now injection H as <-.
  - simpl in H. destruct (pool_chainid c pool) as [k|]; [| discriminate]. simpl in H.
    destruct (append_pool k (new_pool pool) chains) as [chains1|e] eqn:Ea; [| discriminate].
    simpl in H. destruct (append_pool_inv c _ _ _ _ Ea) as (_ & Hkeys & _ & _).
    rewrite <- Hkeys. now apply IH.
Qed.

Lemma fetches_keep_keys c chains chains1 chains2 superchain_votes chains3 :
  fetch_pools c chains = Done chains1 ->
  fetch_voting_weights c chains1 = Done (chains2, superchain_votes) ->
  fetch_existing_buffers c chains2 = Done chains3 ->
  chains3.*1 = chains.*1.
Proof.
  intros H1 H2 H3. unfold fetch_pools in H1.
  destruct (root_allPools c) as [root|]; [| discriminate].
  destruct (cl_root_allPools c) as [cl|]; [| discriminate].
  simpl in H1. apply organize_pools_keys in H1. rewrite <- H1.
  apply weigh_chains_inv in H2 as (-> & _ & _).
  apply fetch_existing_buffers_keeps_votes in H3.
  clear H1. revert chains3 H3.
  induction chains1 as [|[i d] rest IH]; intros chains3 H3.
  - now apply Forall2_nil_inv_l in H3 as ->.
  - rewrite fmap_cons in H3.
    apply Forall2_cons_inv_l in H3 as ([i' d'] & rest3 & (Hi & _) & Hrest & ->).
    rewrite !fmap_cons. simpl in *. f_equal; [assumption | now apply IH].
Qed.

(** X18: a run of [main] from its first line that returns a mapping has run
    the projector on a dict with the ids of the dict it started from, in
    their order; the mapping has no key besides these ids and the hub's id
    10. *)
Theorem main_with_fetches_keys c w chains out :
  main_with_fetches c w chains = Done out ->
  (exists chains3, chains3.*1 = chains.*1 /\ run (main w chains3) = Ok out)
  /\ (forall j : Z, is_Some (out !! j) -> (j ∈ chains.*1) \/ j = OPTIMISM).
Proof.
  intros H. unfold main_with_fetches in H.
  destruct (fetch_pools c chains) as [chains1|e] eqn:H1; [| discriminate].
  simpl in H.
  destruct (fetch_voting_weights c chains1) as [[chains2 sv]|e] eqn:H2; [| discriminate].
  simpl in H.
  destruct (fetch_existing_buffers c chains2) as [chains3|e] eqn:H3; [| discriminate].
  simpl in H.
  destruct (run (main w chains3)) as [o|e] eqn:Hrun; [| discriminate].
  injection H as ->.
  pose proof (fetches_keep_keys _ _ _ _ _ _ H1 H2 H3) as Hkeys.
  split; [exists chains3; auto |].
  intros j Hj.
  destruct (decide (j = OPTIMISM)) as [|Hne]; [now right |]. left.
  destruct (decide (j ∈ chains.*1)) as [|Hnin]; [assumption |]. exfalso.
  rewrite <- Hkeys in Hnin.
  rewrite (main_lookup_outside w chains3 out j Hrun Hnin Hne) in Hj.
  now destruct Hj.
Qed.

End Projector.

(** * The scenarios *)

Lemma configured_chains_NoDup : NoDup (configured_chains.*1).
Proof. apply (bool_decide_unpack _). vm_compute. exact I. Qed.

(** ** Scenario A *)

(** C5, as the code has it: on [V_total = 1000], [v_i = 250], [W = 10000]
    and margins 1.2 and 1.1 the chain's values are [share = 0.25],
    [min_emissions = 2500], [expected_emissions = 3000],
    [min_buffer_cap = 5000], [adjusted_buffer_cap = 6000], and
    [adjusted_rps = (5000 / 604800) * 1.1 = 55/6048], about 0.0091. *)
Theorem scenario_A_values :
  let share := weights_percentage mode 1000 in
  let min_emissions_ := min_emissions 10000 share in
  let min_buffer_cap_ := min_buffer_cap min_emissions_ in
  (share == 1 # 4)%Q
  /\ (min_emissions_ == 2500)%Q
  /\ (padded_emissions BUFFER_MARGIN_A min_emissions_ == 3000)%Q
  /\ (min_buffer_cap_ == 5000)%Q
  /\ (adjusted_buffer_cap BUFFER_MARGIN_A min_buffer_cap_ == 6000)%Q
  /\ (adjusted_rps RPS_MARGIN_A min_buffer_cap_ == 55 # 6048)%Q
  /\ approx4 (adjusted_rps RPS_MARGIN_A min_buffer_cap_) (91 # 10000).
Proof.
  cbv zeta. unfold approx4. repeat split; vm_compute; congruence.
Qed.

(** On the inputs of scenario A, [adjusted_rps] is not about 0.0109; that
    number is what the padded cap would give,
    [(adjusted_buffer_cap / WEEK) * RPS_MARGIN]. *)
Lemma scenario_A_adjusted_rps_not_0_0109 :
  let min_buffer_cap_ := min_buffer_cap (min_emissions 10000 (weights_percentage mode 1000)) in
  ~ approx4 (adjusted_rps RPS_MARGIN_A min_buffer_cap_) (109 # 10000)
  /\ approx4 (adjusted_buffer_cap BUFFER_MARGIN_A min_buffer_cap_
              / inject_Z WEEK * RPS_MARGIN_A)%Q (109 # 10000).
Proof.
  cbv zeta. unfold approx4. split.
  - intros [H _]. vm_compute in H. now apply H.
  - split; vm_compute; congruence.
Qed.

(** ** Runs of the configured chains *)

Ltac run_returns out Hrun :=
  match goal with
  | |- context [run ?m] =>
      destruct (run m) as [out|?] eqn:Hrun;
      [| vm_compute in Hrun; discriminate Hrun]
  end.






(** Ten minutes before the epoch flips, [timestamp = replenish_ts]. *)
Lemma contingency_window_never_zero_witness :
  let timestamp := EPOCH_START + WEEK - 600 in
  timestamp = replenish_ts timestamp
  /\ contingency_window timestamp = 600
  /\ temporary_rps RPS_MARGIN_A 0 6000 (contingency_window timestamp) 0%nat
     = Ok (((6000 / 2 - inject_Z 0) / inject_Z 600 * RPS_MARGIN_A)%Q, 0%nat).
Proof.
  cbv zeta.
  destruct (contingency_window_never_zero RPS_MARGIN_A (EPOCH_START + WEEK - 600))
    as (_ & Hat & Hdiv).
  assert (Hts : EPOCH_START + WEEK - 600 = replenish_ts (EPOCH_START + WEEK - 600))
    by reflexivity.
  destruct (Hat Hts) as [_ H600].
  split; [exact Hts |]. split; [exact H600 |].
  destruct (Hdiv 0 6000%Q 0%nat) as [r Hr].
  rewrite H600 in Hr |- *. reflexivity.
Defined.


(** A total supply of zero. *)
Lemma zero_total_vote_weight_raises_witness :
  totalSupply (scenario EARLY 0) = Some 0
  /\ is_Some (weekly (scenario EARLY 0))
  /\ configured_chains <> []
  /\ run (main BUFFER_MARGIN_A RPS_MARGIN_A (scenario EARLY 0) configured_chains)
     = Raise ZeroDivisionError.
Proof.
  assert (H1 : totalSupply (scenario EARLY 0) = Some 0) by reflexivity.
  assert (H2 : is_Some (weekly (scenario EARLY 0))) by (simpl; eauto).
  assert (H3 : configured_chains <> []) by discriminate.
  split; [exact H1 |]. split; [exact H2 |]. split; [exact H3 |].
  exact (proj1 (zero_total_vote_weight_raises BUFFER_MARGIN_A RPS_MARGIN_A
                  (scenario EARLY 0) configured_chains H1 H2 H3)).
Defined.

(** With a total vote weight of zero the run reaches the share division of
    the first chain, which raises [ZeroDivisionError]; nothing detects the
    zero before. *)
Lemma zero_total_vote_weight_reaches_division :
  totalSupply (scenario EARLY 0) = Some 0
  /\ truediv (inject_Z (total_voting_weight mode)) (inject_Z 0) 0%nat
     = Raise ZeroDivisionError
  /\ process_chain BUFFER_MARGIN_A RPS_MARGIN_A (scenario EARLY 0) 0 10000
       init_locals 34443 mode 0%nat = Raise ZeroDivisionError
  /\ run (main BUFFER_MARGIN_A RPS_MARGIN_A (scenario EARLY 0) configured_chains)
     = Raise ZeroDivisionError.
Proof. repeat split; vm_compute; reflexivity. Qed.




(** * More on the margins *)

(** X10: with values read from the chains that are not negative, a larger
    [BUFFER_MARGIN] never gives a smaller adjusted buffer cap nor smaller
    expected emissions. *)
Theorem buffer_cap_monotone_in_margin (margin1 margin2 : Q) (V wk : Z) (cd : ChainData) :
  0 <= V -> 0 <= wk -> 0 <= total_voting_weight cd ->
  (margin1 <= margin2)%Q ->
  (chain_buffer_cap margin1 V wk cd <= chain_buffer_cap margin2 V wk cd)%Q
  /\ (chain_expected_emissions margin1 V wk cd
      <= chain_expected_emissions margin2 V wk cd)%Q.
Proof.
  intros HV Hwk Hv Hm.
  pose proof (chain_min_emissions_nonneg V wk cd HV Hwk Hv) as Hme.
  unfold chain_buffer_cap, chain_expected_emissions, adjusted_buffer_cap,
    padded_emissions, min_buffer_cap.
  split.
  - rewrite !(Qmult_comm _ margin1), !(Qmult_comm _ margin2).
    apply Qmult_le_compat_r; [assumption |].
    apply Qmult_le_0_compat; [assumption | discriminate].
  - rewrite !(Qmult_comm _ margin1), !(Qmult_comm _ margin2).
    now apply Qmult_le_compat_r.
Qed.

(** * More runs of the configured chains *)

Lemma epoch_next_is_next_boundary_witness :
  EPOCH_START mod WEEK = 0 /\ epoch_next EPOCH_START = EPOCH_START + WEEK.
Proof.
  assert (H : EPOCH_START mod WEEK = 0) by reflexivity.
  split; [exact H |].
  exact (proj2 (proj2 (proj2 (epoch_next_is_next_boundary EPOCH_START))) H).
Defined.

Lemma contingency_window_shape_witness :
  600 < primary_window LATE /\ contingency_window LATE = primary_window LATE - 600.
Proof.
  assert (H : 600 < primary_window LATE) by reflexivity.
  split; [exact H |].
  exact (proj1 (contingency_window_shape LATE) H).
Defined.

Lemma main_keys_witness :
  exists out,
    run (main BUFFER_MARGIN_A RPS_MARGIN_A (scenario EARLY 1000) configured_chains)
    = Ok out
    /\ is_Some (out !! 1135)
    /\ ((1135 ∈ configured_chains.*1) \/ 1135 = OPTIMISM).
Proof.
  run_returns out Hrun. exists out. split; [reflexivity |].
  assert (Hsome : is_Some (out !! 1135)).
  { vm_compute in Hrun. injection Hrun as <-. vm_compute. eauto. }
  split; [exact Hsome |].
  exact (main_keys BUFFER_MARGIN_A RPS_MARGIN_A (scenario EARLY 1000)
           configured_chains out 1135 Hrun Hsome).
Defined.


Lemma configured_chains_no_hub : OPTIMISM ∉ configured_chains.*1.
Proof. apply (bool_decide_unpack _). vm_compute. exact I. Qed.

Lemma main_timestamp_reads_witness :
  exists out reads,
    NoDup (configured_chains.*1) /\ (OPTIMISM ∉ configured_chains.*1)
    /\ main BUFFER_MARGIN_A RPS_MARGIN_A (scenario LATE 1000) configured_chains 0%nat
       = Ok (out, reads)
    /\ reads = (length configured_chains + size out)%nat
    /\ reads = 6%nat.
Proof.
  destruct (main BUFFER_MARGIN_A RPS_MARGIN_A (scenario LATE 1000) configured_chains
              0%nat) as [[out reads]|e] eqn:Hmain;
    [| vm_compute in Hmain; discriminate Hmain].
  exists out, reads.
  split; [exact configured_chains_NoDup |].
  split; [exact configured_chains_no_hub |]. split; [reflexivity |].
  split.
  - exact (main_timestamp_reads BUFFER_MARGIN_A RPS_MARGIN_A (scenario LATE 1000)
             configured_chains out reads configured_chains_NoDup
             configured_chains_no_hub Hmain).
  - vm_compute in Hmain. now injection Hmain as _ <-.
Defined.

Lemma main_ZeroDivisionError_only_witness :
  run (main BUFFER_MARGIN_A RPS_MARGIN_A (scenario EARLY 0) configured_chains)
  = Raise ZeroDivisionError
  /\ ((totalSupply (scenario EARLY 0) = Some 0 /\ configured_chains <> [])
      \/ (BUFFER_MARGIN_A == 0)%Q).
Proof.
  assert (H : run (main BUFFER_MARGIN_A RPS_MARGIN_A (scenario EARLY 0)
                     configured_chains) = Raise ZeroDivisionError)
    by (vm_compute; reflexivity).
  split; [exact H |].
  exact (main_ZeroDivisionError_only BUFFER_MARGIN_A RPS_MARGIN_A (scenario EARLY 0)
           configured_chains H).
Defined.




Lemma buffer_cap_monotone_in_margin_witness :
  0 <= 1000 /\ 0 <= 10000 /\ 0 <= total_voting_weight mode
  /\ (BUFFER_MARGIN_A <= 2)%Q
  /\ (chain_buffer_cap BUFFER_MARGIN_A 1000 10000 mode
      <= chain_buffer_cap 2 1000 10000 mode)%Q.
Proof.
  assert (H1 : 0 <= 1000) by discriminate.
  assert (H2 : 0 <= 10000) by discriminate.
  assert (H3 : 0 <= total_voting_weight mode) by discriminate.
  assert (H4 : (BUFFER_MARGIN_A <= 2)%Q) by discriminate.
  repeat (split; [assumption |]).
  exact (proj1 (buffer_cap_monotone_in_margin BUFFER_MARGIN_A 2 1000 10000 mode
                  H1 H2 H3 H4)).
Defined.


(** * Runs of the fetches *)

Lemma fresh_chains_NoDup : NoDup (fresh_chains.*1).
Proof. apply (bool_decide_unpack _). vm_compute. exact I. Qed.

Lemma fresh_chains_fresh :
  Forall (fun kv : Z * ChainData => pools kv.2 = [] /\ total_voting_weight kv.2 = 0)
         fresh_chains.
Proof. repeat constructor. Qed.

Ltac fetch_returns m x H :=
  destruct m as [x|?] eqn:H; [| vm_compute in H; discriminate H].

Lemma fetch_pools_groups_witness :
  exists chains',
    NoDup (fresh_chains.*1)
    /\ fetch_pools (contracts 1135 [7; 8; 5000]) fresh_chains = Done chains'
    /\ chains'
       = (fun kv => (kv.1, with_pools kv.2
                      (pools kv.2
                       ++ (new_pool <$> pools_on (contracts 1135 [7; 8; 5000]) kv.1
                                          (ROOT_POOLS ++ CL_ROOT_POOLS)))))
         <$> fresh_chains.
Proof.
  fetch_returns (fetch_pools (contracts 1135 [7; 8; 5000]) fresh_chains) chains' H.
  exists chains'. split; [exact fresh_chains_NoDup |]. split; [reflexivity |].
  destruct (fetch_pools_groups (contracts 1135 [7; 8; 5000]) fresh_chains chains'
              fresh_chains_NoDup H) as (root & cl & Hr & Hc & Hmap & _).
  simpl in Hr, Hc. injection Hr as <-. injection Hc as <-. exact Hmap.
Defined.

Lemma fetch_pools_KeyError_witness :
  root_allPools (contracts 8453 [7; 8; 5000]) = Some ROOT_POOLS
  /\ cl_root_allPools (contracts 8453 [7; 8; 5000]) = Some CL_ROOT_POOLS
  /\ ROOT_POOLS ++ CL_ROOT_POOLS = ["p1"%string] ++ "p2"%string :: CL_ROOT_POOLS
  /\ Forall (fun p => exists chainid,
               pool_chainid (contracts 8453 [7; 8; 5000]) p = Some chainid
               /\ chainid ∈ fresh_chains.*1) ["p1"%string]
  /\ pool_chainid (contracts 8453 [7; 8; 5000]) "p2"%string = Some 8453
  /\ (8453 ∉ fresh_chains.*1)
  /\ fetch_pools (contracts 8453 [7; 8; 5000]) fresh_chains = Failed (KeyError 8453).
Proof.
  assert (H4 : Forall (fun p => exists chainid,
                 pool_chainid (contracts 8453 [7; 8; 5000]) p = Some chainid
                 /\ chainid ∈ fresh_chains.*1) ["p1"%string]).
  { constructor; [| constructor]. exists 34443. split; [reflexivity |]. left. }
  assert (H6 : 8453 ∉ fresh_chains.*1)
    by (apply (bool_decide_unpack _); vm_compute; exact I).
  split; [reflexivity |]. split; [reflexivity |]. split; [reflexivity |].
  split; [exact H4 |]. split; [reflexivity |]. split; [exact H6 |].
  exact (fetch_pools_KeyError (contracts 8453 [7; 8; 5000]) fresh_chains
           ROOT_POOLS CL_ROOT_POOLS ["p1"%string] "p2"%string
           CL_ROOT_POOLS 8453 eq_refl eq_refl eq_refl H4 eq_refl H6).
Defined.

Lemma fetch_voting_weights_totals_witness :
  exists chains1 chains2 superchain_votes,
    fetch_pools (contracts 1135 [7; 8; 5000]) fresh_chains = Done chains1
    /\ fetch_voting_weights (contracts 1135 [7; 8; 5000]) chains1
       = Done (chains2, superchain_votes)
    /\ superchain_votes = votes_of_chains chains2.
Proof.
  fetch_returns (fetch_pools (contracts 1135 [7; 8; 5000]) fresh_chains) chains1 H1.
  destruct (fetch_voting_weights (contracts 1135 [7; 8; 5000]) chains1)
    as [[chains2 sv]|e] eqn:H2;
    [| vm_compute in H1; injection H1 as <-; vm_compute in H2; discriminate H2].
  exists chains1, chains2, sv. split; [reflexivity |]. split; [exact H2 |].
  exact (proj1 (proj2 (proj2 (fetch_voting_weights_totals
                                (contracts 1135 [7; 8; 5000]) chains1 chains2 sv H2)))).
Defined.

Lemma superchain_votes_counts_every_listing_witness :
  exists chains1 chains2 superchain_votes,
    fetch_pools (contracts 1135 [7; 8; 5000]) fresh_chains = Done chains1
    /\ fetch_voting_weights (contracts 1135 [7; 8; 5000]) chains1
       = Done (chains2, superchain_votes)
    /\ superchain_votes
       = total_weight (contracts 1135 [7; 8; 5000]) ROOT_POOLS
         + total_weight (contracts 1135 [7; 8; 5000]) CL_ROOT_POOLS
    /\ superchain_votes = 950.
Proof.
  fetch_returns (fetch_pools (contracts 1135 [7; 8; 5000]) fresh_chains) chains1 H1.
  destruct (fetch_voting_weights (contracts 1135 [7; 8; 5000]) chains1)
    as [[chains2 sv]|e] eqn:H2;
    [| vm_compute in H1; injection H1 as <-; vm_compute in H2; discriminate H2].
  exists chains1, chains2, sv. split; [reflexivity |]. split; [exact H2 |].
  destruct (superchain_votes_counts_every_listing (contracts 1135 [7; 8; 5000])
              fresh_chains chains1 chains2 sv H1 H2)
    as (root & cl & Hr & Hc & _ & Hfresh).
  simpl in Hr, Hc. injection Hr as <-. injection Hc as <-.
  pose proof (Hfresh fresh_chains_fresh) as Hsv.
  split; [exact Hsv |]. rewrite Hsv. reflexivity.
Defined.

Lemma fetch_existing_buffers_fields_witness :
  exists chains',
    fetch_existing_buffers (contracts 1135 [7; 8; 5000]) fresh_chains = Done chains'
    /\ length chains' = length fresh_chains.
Proof.
  fetch_returns (fetch_existing_buffers (contracts 1135 [7; 8; 5000]) fresh_chains)
    chains' H.
  exists chains'. split; [reflexivity |]. symmetry.
  exact (Forall2_length _ _ _
           (fetch_existing_buffers_fields (contracts 1135 [7; 8; 5000])
              fresh_chains chains' H)).
Defined.

Lemma fetch_existing_buffers_IndexError_witness :
  fetch_existing_buffers (contracts 1135 []) [] = Done []
  /\ is_Some (xerc20_bufferCap (contracts 1135 []) 34443)
  /\ is_Some (xerc20_rateLimitPerSecond (contracts 1135 []) 34443)
  /\ is_Some (xerc20_mintingCurrentLimitOf (contracts 1135 []) 34443)
  /\ xerc20_rateLimits (contracts 1135 []) 34443 = Some []
  /\ fetch_existing_buffers (contracts 1135 [])
       ([] ++ (34443, fresh "Mode") :: [(1135, fresh "Lisk")])
     = Failed IndexError.
Proof.
  assert (H1 : is_Some (xerc20_bufferCap (contracts 1135 []) 34443)) by (simpl; eauto).
  assert (H2 : is_Some (xerc20_rateLimitPerSecond (contracts 1135 []) 34443))
    by (simpl; eauto).
  assert (H3 : is_Some (xerc20_mintingCurrentLimitOf (contracts 1135 []) 34443))
    by (simpl; eauto).
  split; [reflexivity |]. split; [exact H1 |]. split; [exact H2 |].
  split; [exact H3 |]. split; [reflexivity |].
  exact (fetch_existing_buffers_IndexError (contracts 1135 []) [] 34443
           (fresh "Mode") [(1135, fresh "Lisk")] [] eq_refl H1 H2 H3 eq_refl).
Defined.

Lemma fetched_vote_weights_witness :
  exists chains1 chains2 superchain_votes chains3,
    NoDup (fresh_chains.*1)
    /\ Forall (fun kv : Z * ChainData =>
                 pools kv.2 = [] /\ total_voting_weight kv.2 = 0) fresh_chains
    /\ fetch_pools (contracts 1135 [7; 8; 5000]) fresh_chains = Done chains1
    /\ fetch_voting_weights (contracts 1135 [7; 8; 5000]) chains1
       = Done (chains2, superchain_votes)
    /\ fetch_existing_buffers (contracts 1135 [7; 8; 5000]) chains2 = Done chains3
    /\ length chains3 = length fresh_chains.
Proof.
  fetch_returns (fetch_pools (contracts 1135 [7; 8; 5000]) fresh_chains) chains1 H1.
  destruct (fetch_voting_weights (contracts 1135 [7; 8; 5000]) chains1)
    as [[chains2 sv]|e] eqn:H2;
    [| vm_compute in H1; injection H1 as <-; vm_compute in H2; discriminate H2].
  destruct (fetch_existing_buffers (contracts 1135 [7; 8; 5000]) chains2)
    as [chains3|e] eqn:H3;
    [| vm_compute in H1; injection H1 as <-; vm_compute in H2;
       injection H2 as <- _; vm_compute in H3; discriminate H3].
  exists chains1, chains2, sv, chains3.
  split; [exact fresh_chains_NoDup |]. split; [exact fresh_chains_fresh |].
  split; [reflexivity |]. split; [exact H2 |]. split; [exact H3 |].
  destruct (fetched_vote_weights (contracts 1135 [7; 8; 5000]) fresh_chains
              chains1 chains2 sv chains3 fresh_chains_NoDup fresh_chains_fresh
              H1 H2 H3) as (root & cl & _ & _ & Hall).
  symmetry. exact (Forall2_length _ _ _ Hall).
Defined.


Lemma main_with_fetches_keys_witness :
  exists out,
    main_with_fetches BUFFER_MARGIN_A RPS_MARGIN_A (contracts 1135 [7; 8; 5000])
      (scenario LATE 1000) fresh_chains = Done out
    /\ is_Some (out !! 252)
    /\ ((252 ∈ fresh_chains.*1) \/ 252 = OPTIMISM).
Proof.
  fetch_returns (main_with_fetches BUFFER_MARGIN_A RPS_MARGIN_A
                   (contracts 1135 [7; 8; 5000]) (scenario LATE 1000) fresh_chains)
    out H.
  exists out. split; [reflexivity |].
  assert (Hsome : is_Some (out !! 252)).
  { vm_compute in H. injection H as <-. vm_compute. eauto. }
  split; [exact Hsome |].
  exact (proj2 (main_with_fetches_keys BUFFER_MARGIN_A RPS_MARGIN_A
                  (contracts 1135 [7; 8; 5000]) (scenario LATE 1000) fresh_chains
                  out H) 252 Hsome).
Defined.
